(** * Tolerance rewards: [metasim/utils/humanoid_reward_util.py]

    A shallow embedding of the two scoring back ends of the module,
    [tolerance] / [_sigmoids] (numpy) and [tolerance_tensor] /
    [_sigmoids_tensor] (torch), together with the properties the
    specification states about them.

    Numbers.  The main embedding reads a float as a real number of [R]: the
    formulas are taken in exact arithmetic, so rounding, infinities and NaN
    are outside it.  It carries the statements that rounding does not
    disturb: which exception is raised, membership in the bounds, the range
    of the score, its monotonicity.  The one rounding step that decides a
    branch, the cast of [value_at_margin] to a single-precision tensor in
    [tolerance_tensor], is modelled by [float32].  Where rounding decides
    the value itself, the scalar path of [tolerance] is embedded a second
    time on binary64 with the primitive floats ([tolerance_binary64]), for
    the two shapes that need only the arithmetic of IEEE 754.

    Values.  A numpy array and a torch tensor are a shape together with the
    flat list of their elements; a Python scalar handed to numpy behaves as a
    zero-dimensional array (shape [[]], one element).  The Python class of a
    value (plain float, numpy array, torch tensor) is kept, because the code
    depends on it: [float(value)], [np.isscalar] and the argument check of
    [torch.where]. *)

From Stdlib Require Import Reals Lra Psatz ZArith Lia List String Bool.
From Stdlib Require PrimFloat.
Import ListNotations.
Open Scope R_scope.

(** ** Python values and exceptions *)

Record array (T : Type) : Type := mk_array { shape : list nat; data : list T }.
Arguments mk_array {T} _ _.
Arguments shape {T} _.
Arguments data {T} _.

(** The runtime classes the module handles.  A [Tensor] is a torch tensor
    on the CPU that does not track gradients, the kind numpy converts to an
    array; tensors that track gradients or live on an accelerator are outside
    the model. *)
Inductive pyval : Type :=
| PyFloat (r : R)
| NdArray (a : array R)
| Tensor (a : array R).

(** The exceptions the module can end with: the five [raise ValueError]
    statements of the source (the two [value_at_1] messages are told apart by
    [strict]), the [TypeError] of [torch.where] on an argument that is neither
    a tensor nor a number, and the [TypeError] of [float] on an array that
    has not exactly one element. *)
Inductive exn : Type :=
| ValueError_bounds
| ValueError_margin
| ValueError_value_at_1 (strict : bool) (got : R)
| ValueError_unknown_sigmoid (sigmoid : string)
| TypeError_where
| TypeError_float.

Inductive result (T : Type) : Type :=
| Ok (v : T)
| Raise (e : exn).
Arguments Ok {T} _.
Arguments Raise {T} _.

Definition bind {T U : Type} (m : result T) (k : T -> result U) : result U :=
  match m with
  | Ok v => k v
  | Raise e => Raise e
  end.

Notation "'do' v <- m ; k" := (bind m (fun v => k))
  (at level 10, v name, m at level 100, k at level 200).

(** ** Comparisons and elementary functions *)

Definition Rltb (a b : R) : bool := if Rlt_dec a b then true else false.
Definition Rleb (a b : R) : bool := if Rle_dec a b then true else false.
Definition Reqb (a b : R) : bool := if Req_dec_T a b then true else false.

(** [arccosh] and [arctanh] of numpy and torch, on the reals. *)
Definition arccosh (y : R) : R := ln (y + sqrt (y ^ 2 - 1)).
Definition arctanh (y : R) : R := ln ((1 + y) / (1 - y)) / 2.

(** ** Elementwise operations *)

Definition amap {T U : Type} (f : T -> U) (a : array T) : array U :=
  mk_array (shape a) (map f (data a)).

Fixpoint and_data (a b : list bool) : list bool :=
  match a, b with
  | ai :: a', bi :: b' => (ai && bi) :: and_data a' b'
  | _, _ => []
  end.

(** [np.logical_and] / [torch.logical_and] of two masks of one shape. *)
Definition logical_and (a b : array bool) : array bool :=
  mk_array (shape a) (and_data (data a) (data b)).

(** An argument of [where]: a number is broadcast, an array or tensor is
    read element by element. *)
Definition first (v : pyval) : R :=
  match v with
  | PyFloat r => r
  | NdArray a | Tensor a => hd 0 (data a)
  end.

Definition rest (v : pyval) : pyval :=
  match v with
  | PyFloat r => PyFloat r
  | NdArray a => NdArray (mk_array (shape a) (tl (data a)))
  | Tensor a => Tensor (mk_array (shape a) (tl (data a)))
  end.

Fixpoint where_data (c : list bool) (a b : pyval) : list R :=
  match c with
  | [] => []
  | ci :: c' => (if ci then first a else first b) :: where_data c' (rest a) (rest b)
  end.

(** [np.where(c, a, b)]: whatever the classes of [a] and [b] (numbers,
    arrays, or tensors, which numpy converts), the result is a numpy array. *)
Definition np_where (c : array bool) (a b : pyval) : array R :=
  mk_array (shape c) (where_data (data c) a b).

Definition torch_accepts (v : pyval) : bool :=
  match v with
  | PyFloat _ | Tensor _ => true
  | NdArray _ => false
  end.

(** [torch.where(c, a, b)]: [a] and [b] must be tensors or numbers; a numpy
    array is refused with a [TypeError].  The result is a tensor. *)
Definition torch_where (c : array bool) (a b : pyval) : result (array R) :=
  if torch_accepts a && torch_accepts b
  then Ok (mk_array (shape c) (where_data (data c) a b))
  else Raise TypeError_where.

(** ** The Sigmoid Evaluator *)

Definition _DEFAULT_VALUE_AT_MARGIN : R := 0.1.

(** The validation at the head of [_sigmoids] and [_sigmoids_tensor]. *)
Definition check_value_at_1 (value_at_1 : R) (sigmoid : string) : result unit :=
  if ((sigmoid =? "cosine") || (sigmoid =? "linear") || (sigmoid =? "quadratic"))%string
  then
    if negb (Rleb 0 value_at_1 && Rltb value_at_1 1)
    then Raise (ValueError_value_at_1 false value_at_1)
    else Ok tt
  else
    if negb (Rltb 0 value_at_1 && Rltb value_at_1 1)
    then Raise (ValueError_value_at_1 true value_at_1)
    else Ok tt.

Definition _sigmoids (x : array R) (value_at_1 : R) (sigmoid : string)
  : result (array R) :=
  do _ <- check_value_at_1 value_at_1 sigmoid;
  if (sigmoid =? "gaussian")%string then
    let scale := sqrt (-2 * ln value_at_1) in
    Ok (amap (fun xi => exp (-0.5 * (xi * scale) ^ 2)) x)
  else if (sigmoid =? "hyperbolic")%string then
    let scale := arccosh (1 / value_at_1) in
    Ok (amap (fun xi => 1 / cosh (xi * scale)) x)
  else if (sigmoid =? "long_tail")%string then
    let scale := sqrt (1 / value_at_1 - 1) in
    Ok (amap (fun xi => 1 / ((xi * scale) ^ 2 + 1)) x)
  else if (sigmoid =? "reciprocal")%string then
    let scale := 1 / value_at_1 - 1 in
    Ok (amap (fun xi => 1 / (Rabs xi * scale + 1)) x)
  else if (sigmoid =? "cosine")%string then
    let scale := acos (2 * value_at_1 - 1) / PI in
    let scaled_x := amap (fun xi => xi * scale) x in
    let cos_pi_scaled_x := amap (fun s => cos (PI * s)) scaled_x in
    Ok (np_where (amap (fun s => Rltb (Rabs s) 1) scaled_x)
                 (NdArray (amap (fun c => (1 + c) / 2) cos_pi_scaled_x))
                 (PyFloat 0))
  else if (sigmoid =? "linear")%string then
    let scale := 1 - value_at_1 in
    let scaled_x := amap (fun xi => xi * scale) x in
    Ok (np_where (amap (fun s => Rltb (Rabs s) 1) scaled_x)
                 (NdArray (amap (fun s => 1 - s) scaled_x))
                 (PyFloat 0))
  else if (sigmoid =? "quadratic")%string then
    let scale := sqrt (1 - value_at_1) in
    let scaled_x := amap (fun xi => xi * scale) x in
    Ok (np_where (amap (fun s => Rltb (Rabs s) 1) scaled_x)
                 (NdArray (amap (fun s => 1 - s ^ 2) scaled_x))
                 (PyFloat 0))
  else if (sigmoid =? "tanh_squared")%string then
    let scale := arctanh (sqrt (1 - value_at_1)) in
    Ok (amap (fun xi => 1 - tanh (xi * scale) ^ 2) x)
  else Raise (ValueError_unknown_sigmoid sigmoid).

(** The torch twin.  It returns a tensor, except in the [cosine] branch,
    which selects with [np.where] and so hands back a numpy array. *)
Definition _sigmoids_tensor (x : array R) (value_at_1 : R) (sigmoid : string)
  : result pyval :=
  do _ <- check_value_at_1 value_at_1 sigmoid;
  if (sigmoid =? "gaussian")%string then
    let scale := sqrt (-2 * ln value_at_1) in
    Ok (Tensor (amap (fun xi => exp (-0.5 * (xi * scale) ^ 2)) x))
  else if (sigmoid =? "hyperbolic")%string then
    let scale := arccosh (1 / value_at_1) in
    Ok (Tensor (amap (fun xi => 1 / cosh (xi * scale)) x))
  else if (sigmoid =? "long_tail")%string then
    let scale := sqrt (1 / value_at_1 - 1) in
    Ok (Tensor (amap (fun xi => 1 / ((xi * scale) ^ 2 + 1)) x))
  else if (sigmoid =? "reciprocal")%string then
    let scale := 1 / value_at_1 - 1 in
    Ok (Tensor (amap (fun xi => 1 / (Rabs xi * scale + 1)) x))
  else if (sigmoid =? "cosine")%string then
    let scale := acos (2 * value_at_1 - 1) / PI in
    let scaled_x := amap (fun xi => xi * scale) x in
    let cos_pi_scaled_x := amap (fun s => cos (PI * s)) scaled_x in
    Ok (NdArray (np_where (amap (fun s => Rltb (Rabs s) 1) scaled_x)
                          (Tensor (amap (fun c => (1 + c) / 2) cos_pi_scaled_x))
                          (PyFloat 0)))
  else if (sigmoid =? "linear")%string then
    let scale := 1 - value_at_1 in
    let scaled_x := amap (fun xi => xi * scale) x in
    do r <- torch_where (amap (fun s => Rltb (Rabs s) 1) scaled_x)
                        (Tensor (amap (fun s => 1 - s) scaled_x))
                        (PyFloat 0);
    Ok (Tensor r)
  else if (sigmoid =? "quadratic")%string then
    let scale := sqrt (1 - value_at_1) in
    let scaled_x := amap (fun xi => xi * scale) x in
    do r <- torch_where (amap (fun s => Rltb (Rabs s) 1) scaled_x)
                        (Tensor (amap (fun s => 1 - s ^ 2) scaled_x))
                        (PyFloat 0);
    Ok (Tensor r)
  else if (sigmoid =? "tanh_squared")%string then
    let scale := arctanh (sqrt (1 - value_at_1)) in
    Ok (Tensor (amap (fun xi => 1 - tanh (xi * scale) ^ 2) x))
  else Raise (ValueError_unknown_sigmoid sigmoid).

(** ** The Tolerance Scorer *)

(** The argument [x] of [tolerance]: a Python scalar, for which
    [np.isscalar] holds, or a numpy array, for which it does not. *)
Inductive np_input : Type :=
| Scalar (r : R)
| Arr (a : array R).

Definition isscalar (x : np_input) : bool :=
  match x with
  | Scalar _ => true
  | Arr _ => false
  end.

(** A scalar takes part in numpy's operations as a zero-dimensional array. *)
Definition as_array (x : np_input) : array R :=
  match x with
  | Scalar r => mk_array [] [r]
  | Arr a => a
  end.

(** [float(value)]: defined on an array of exactly one element. *)
Definition py_float (value : array R) : result R :=
  match data value with
  | [r] => Ok r
  | _ => Raise TypeError_float
  end.

(** The return statement of [tolerance]:
    [float(value) if np.isscalar(x) else value]. *)
Definition finish (x : np_input) (value : array R) : result pyval :=
  if isscalar x then (do r <- py_float value; Ok (PyFloat r)) else Ok (NdArray value).

Definition tolerance (x : np_input) (bounds : R * R) (margin : R)
    (sigmoid : string) (value_at_margin : R) : result pyval :=
  let '(lower, upper) := bounds in
  if Rltb upper lower then Raise ValueError_bounds
  else if Rltb margin 0 then Raise ValueError_margin
  else
    let xa := as_array x in
    let in_bounds :=
      logical_and (amap (fun xi => Rleb lower xi) xa)
                  (amap (fun xi => Rleb xi upper) xa) in
    do value <-
      (if Reqb margin 0 then Ok (np_where in_bounds (PyFloat 1) (PyFloat 0))
       else
         let d :=
           amap (fun t => t / margin)
                (np_where (amap (fun xi => Rltb xi lower) xa)
                          (NdArray (amap (fun xi => lower - xi) xa))
                          (NdArray (amap (fun xi => xi - upper) xa))) in
         do s <- _sigmoids d value_at_margin sigmoid;
         Ok (np_where in_bounds (PyFloat 1) (NdArray s)));
    finish x value.

(** [torch.tensor(value_at_margin, device=x.device)] builds a tensor of
    torch's default type, single precision: the value is rounded to the
    nearest binary32 number, ties to even, with gradual underflow.  The
    binade of [a > 0] is the integer [e] with [2 ^ e <= a < 2 ^ (e + 1)];
    numbers below [2 ^ -126] are rounded on the subnormal grid of step
    [2 ^ -149].  Overflow to an infinity is not modelled: a value beyond the
    binary32 range is rounded on its own binade and fails the validation of
    [value_at_1] just as the infinity does. *)
Definition nearest_even (y : R) : Z :=
  let f := Int_part y in
  let d := y - IZR f in
  if Rlt_dec d (1 / 2) then f
  else if Rlt_dec (1 / 2) d then (f + 1)%Z
  else if Z.even f then f else (f + 1)%Z.

Definition binade (a : R) : Z := Int_part (ln a / ln 2).

Definition float32 (x : R) : R :=
  if Req_dec_T x 0 then 0
  else
    let e := Z.max (binade (Rabs x)) (-126) in
    let ulp := Rpower 2 (IZR (e - 23)) in
    (if Rlt_dec x 0 then -1 else 1) * (ulp * IZR (nearest_even (Rabs x / ulp))).

Definition tolerance_tensor (x : array R) (bounds : R * R) (margin : R)
    (sigmoid : string) (value_at_margin : R) : result pyval :=
  let '(lower, upper) := bounds in
  if Rltb upper lower then Raise ValueError_bounds
  else if Rltb margin 0 then Raise ValueError_margin
  else
    let in_bounds :=
      logical_and (amap (fun xi => Rleb lower xi) x)
                  (amap (fun xi => Rleb xi upper) x) in
    do value <-
      (if Reqb margin 0 then torch_where in_bounds (PyFloat 1) (PyFloat 0)
       else
         do w <- torch_where (amap (fun xi => Rltb xi lower) x)
                             (Tensor (amap (fun xi => lower - xi) x))
                             (Tensor (amap (fun xi => xi - upper) x));
         let dd := amap (fun t => t / margin) w in
         do s <- _sigmoids_tensor dd (float32 value_at_margin) sigmoid;
         torch_where in_bounds (PyFloat 1) s);
    Ok (Tensor value).

(** ** The closed set of shapes, and the formulas read element by element

    These definitions are the vocabulary of the statements: the eight
    recognised identifiers, the constraint the validation puts on
    [value_at_1] for each, and the value each branch computes for one
    element.  The lemmas [_sigmoids_elementwise] and [tolerance_elementwise]
    below tie them to the functions above. *)

Inductive kind : Type :=
| gaussian | hyperbolic | long_tail | reciprocal
| cosine | linear | quadratic | tanh_squared.

Definition name (k : kind) : string :=
  match k with
  | gaussian => "gaussian"
  | hyperbolic => "hyperbolic"
  | long_tail => "long_tail"
  | reciprocal => "reciprocal"
  | cosine => "cosine"
  | linear => "linear"
  | quadratic => "quadratic"
  | tanh_squared => "tanh_squared"
  end.

Definition recognized (sigmoid : string) : Prop := exists k, sigmoid = name k.

Definition permits_zero (k : kind) : bool :=
  match k with
  | cosine | linear | quadratic => true
  | _ => false
  end.

(** [value_at_1] is valid for [k]: in [[0,1)] for cosine, linear and
    quadratic, in [(0,1)] for the other five. *)
Definition valid_value (k : kind) (v : R) : Prop :=
  (if permits_zero k then 0 <= v else 0 < v) /\ v < 1.

Definition sigmoid_at (k : kind) (value_at_1 : R) (xi : R) : R :=
  match k with
  | gaussian => exp (-0.5 * (xi * sqrt (-2 * ln value_at_1)) ^ 2)
  | hyperbolic => 1 / cosh (xi * arccosh (1 / value_at_1))
  | long_tail => 1 / ((xi * sqrt (1 / value_at_1 - 1)) ^ 2 + 1)
  | reciprocal => 1 / (Rabs xi * (1 / value_at_1 - 1) + 1)
  | cosine =>
      let s := xi * (acos (2 * value_at_1 - 1) / PI) in
      if Rltb (Rabs s) 1 then (1 + cos (PI * s)) / 2 else 0
  | linear =>
      let s := xi * (1 - value_at_1) in
      if Rltb (Rabs s) 1 then 1 - s else 0
  | quadratic =>
      let s := xi * sqrt (1 - value_at_1) in
      if Rltb (Rabs s) 1 then 1 - s ^ 2 else 0
  | tanh_squared => 1 - tanh (xi * arctanh (sqrt (1 - value_at_1))) ^ 2
  end.

(** The normalised distance [tolerance] hands to [_sigmoids]. *)
Definition distance (lower upper margin xi : R) : R :=
  (if Rltb xi lower then lower - xi else xi - upper) / margin.

Definition inside (lower upper xi : R) : bool := Rleb lower xi && Rleb xi upper.

(** One element of the result with [margin = 0] and with [margin <> 0]. *)
Definition indicator_at (lower upper xi : R) : R :=
  if inside lower upper xi then 1 else 0.

Definition score_at (k : kind) (lower upper margin v xi : R) : R :=
  if inside lower upper xi then 1
  else sigmoid_at k v (distance lower upper margin xi).

(** The elements of a returned value. *)
Definition elements (v : pyval) : list R :=
  match v with
  | PyFloat r => [r]
  | NdArray a | Tensor a => data a
  end.

(** [reads f l v]: as an argument of [where] over the index list [l], the
    value [v] supplies [f t] at the position of [t]. *)
Inductive reads {T : Type} (f : T -> R) : list T -> pyval -> Prop :=
| reads_float : forall l r, (forall t, f t = r) -> reads f l (PyFloat r)
| reads_ndarray : forall l sh, reads f l (NdArray (mk_array sh (map f l)))
| reads_tensor : forall l sh, reads f l (Tensor (mk_array sh (map f l))).

(** The value [tolerance] returns when every element of [x] is sent through
    [f]: a plain float for a scalar, an array of the shape of [x] otherwise. *)
Definition elementwise (f : R -> R) (x : np_input) : pyval :=
  match x with
  | Scalar r => PyFloat (f r)
  | Arr a => NdArray (mk_array (shape a) (map f (data a)))
  end.

(** One element of the result, for any [margin >= 0]. *)
Definition value_at (k : kind) (lower upper margin v xi : R) : R :=
  if Reqb margin 0 then indicator_at lower upper xi
  else score_at k lower upper margin v xi.

(** The errors of the Sigmoid Evaluator: a rejected [value_at_1] or an
    unknown shape. *)
Definition shape_error (e : exn) : Prop :=
  match e with
  | ValueError_value_at_1 _ _ | ValueError_unknown_sigmoid _ => True
  | _ => False
  end.

(** Two outcomes of the two back ends agree: the same exception, or an array
    and a tensor of one shape with the same elements. *)
Definition same_outcome (np_result torch_result : result pyval) : Prop :=
  match np_result, torch_result with
  | Raise e1, Raise e2 => e1 = e2
  | Ok (NdArray a), Ok (Tensor b) => a = b
  | _, _ => False
  end.

(** [x1] and [x2] lie outside the bounds on one side, [x2] at least as far
    out as [x1]. *)
Definition farther_out (lower upper x1 x2 : R) : Prop :=
  upper < x1 <= x2 \/ x2 <= x1 < lower.

(** The [scale] each branch of [_sigmoids] derives from [value_at_1]. *)
Definition scale (k : kind) (value_at_1 : R) : R :=
  match k with
  | gaussian => sqrt (-2 * ln value_at_1)
  | hyperbolic => arccosh (1 / value_at_1)
  | long_tail => sqrt (1 / value_at_1 - 1)
  | reciprocal => 1 / value_at_1 - 1
  | cosine => acos (2 * value_at_1 - 1) / PI
  | linear => 1 - value_at_1
  | quadratic => sqrt (1 - value_at_1)
  | tanh_squared => arctanh (sqrt (1 - value_at_1))
  end.

(** Two outcomes of the two back ends fail alike: both succeed, or both raise
    the same exception. *)
Definition same_failure (np_result torch_result : result pyval) : Prop :=
  match np_result, torch_result with
  | Raise e1, Raise e2 => e1 = e2
  | Ok _, Ok _ => True
  | _, _ => False
  end.

(** ** The scalar path of [tolerance] on binary64

    [tolerance] called with Python floats: every operation is an IEEE 754
    binary64 operation, here the primitive floats.  The comparisons are
    Python's ([lower > upper] is [upper < lower]; a comparison with NaN is
    false) and [np.where] on a scalar condition is a conditional.  The
    branches [reciprocal] and [linear] use only additions, multiplications
    and divisions, which IEEE 754 fixes to the last bit.  The other six call
    routines of the C library ([exp], [log], [cosh], [arccosh], [arccos],
    [cos], [tanh], [arctanh], and [pow] for [** 2]), whose roundings IEEE 754
    does not fix: on them the embedding stops with [Uses_libm]. *)

Inductive failure : Type :=
| Invalid_bounds
| Invalid_margin
| Invalid_value_at_1 (strict : bool)
| Unknown_sigmoid.

Inductive outcome : Type :=
| Returns (y : PrimFloat.float)
| Fails (e : failure)
| Uses_libm.

Section Binary64.
Import PrimFloat.
Local Open Scope float_scope.

Definition check_value_at_1_binary64 (value_at_1 : float) (sigmoid : string)
  : option failure :=
  if ((sigmoid =? "cosine") || (sigmoid =? "linear") || (sigmoid =? "quadratic"))%string
  then
    if negb ((0 <=? value_at_1) && (value_at_1 <? 1))
    then Some (Invalid_value_at_1 false)
    else None
  else
    if negb ((0 <? value_at_1) && (value_at_1 <? 1))
    then Some (Invalid_value_at_1 true)
    else None.

Definition _sigmoids_binary64 (x value_at_1 : float) (sigmoid : string) : outcome :=
  match check_value_at_1_binary64 value_at_1 sigmoid with
  | Some e => Fails e
  | None =>
      if (sigmoid =? "gaussian")%string then Uses_libm
      else if (sigmoid =? "hyperbolic")%string then Uses_libm
      else if (sigmoid =? "long_tail")%string then Uses_libm
      else if (sigmoid =? "reciprocal")%string then
        let scale := 1 / value_at_1 - 1 in
        Returns (1 / (abs x * scale + 1))
      else if (sigmoid =? "cosine")%string then Uses_libm
      else if (sigmoid =? "linear")%string then
        let scale := 1 - value_at_1 in
        let scaled_x := x * scale in
        Returns (if abs scaled_x <? 1 then 1 - scaled_x else 0)
      else if (sigmoid =? "quadratic")%string then Uses_libm
      else if (sigmoid =? "tanh_squared")%string then Uses_libm
      else Fails Unknown_sigmoid
  end.

Definition tolerance_binary64 (x : float) (bounds : float * float) (margin : float)
    (sigmoid : string) (value_at_margin : float) : outcome :=
  let '(lower, upper) := bounds in
  if upper <? lower then Fails Invalid_bounds
  else if margin <? 0 then Fails Invalid_margin
  else
    let in_bounds := (lower <=? x) && (x <=? upper) in
    if margin =? 0 then Returns (if in_bounds then 1 else 0)
    else
      let d := (if x <? lower then lower - x else x - upper) / margin in
      match _sigmoids_binary64 d value_at_margin sigmoid with
      | Returns s => Returns (if in_bounds then 1 else s)
      | other => other
      end.

End Binary64.

(** * Properties *)

(** ** Comparisons *)

Lemma Rltb_spec (a b : R) : reflect (a < b) (Rltb a b).
Proof. unfold Rltb; destruct (Rlt_dec a b); constructor; assumption. Qed.

Lemma Rleb_spec (a b : R) : reflect (a <= b) (Rleb a b).
Proof. unfold Rleb; destruct (Rle_dec a b); constructor; assumption. Qed.

Lemma Reqb_spec (a b : R) : reflect (a = b) (Reqb a b).
Proof. unfold Reqb; destruct (Req_dec_T a b); constructor; assumption. Qed.

Lemma Rltb_true (a b : R) : a < b -> Rltb a b = true.
Proof. intros H; destruct (Rltb_spec a b); [reflexivity | contradiction]. Qed.

Lemma Rltb_false (a b : R) : b <= a -> Rltb a b = false.
Proof. intros H; destruct (Rltb_spec a b); [lra | reflexivity]. Qed.

Lemma Rleb_true (a b : R) : a <= b -> Rleb a b = true.
Proof. intros H; destruct (Rleb_spec a b); [reflexivity | contradiction]. Qed.

Lemma Rleb_false (a b : R) : b < a -> Rleb a b = false.
Proof. intros H; destruct (Rleb_spec a b); [lra | reflexivity]. Qed.

Lemma Reqb_true (a : R) : Reqb a a = true.
Proof. destruct (Reqb_spec a a); [reflexivity | contradiction]. Qed.

Lemma Reqb_false (a b : R) : a <> b -> Reqb a b = false.
Proof. intros H; destruct (Reqb_spec a b); [contradiction | reflexivity]. Qed.

Lemma inside_spec (lower upper xi : R) :
  reflect (lower <= xi <= upper) (inside lower upper xi).
Proof.
  unfold inside.
  destruct (Rleb_spec lower xi), (Rleb_spec xi upper); constructor; lra.
Qed.

(** ** Elementwise reading of the array operations *)

Lemma reads_cons {T : Type} (f : T -> R) (t : T) (l : list T) (v : pyval) :
  reads f (t :: l) v -> first v = f t /\ reads f l (rest v).
Proof.
  inversion 1; subst; simpl; split; auto; constructor; assumption.
Qed.

Lemma where_data_reads {T : Type} (c : T -> bool) (f g : T -> R) (l : list T) :
  forall a b, reads f l a -> reads g l b ->
  where_data (map c l) a b = map (fun t => if c t then f t else g t) l.
Proof.
  induction l as [|t l IH]; intros a b Ha Hb; [reflexivity|].
  apply reads_cons in Ha; destruct Ha as [Ea Ha].
  apply reads_cons in Hb; destruct Hb as [Eb Hb].
  simpl. rewrite Ea, Eb, (IH _ _ Ha Hb). reflexivity.
Qed.

Lemma and_data_map {T : Type} (p q : T -> bool) (l : list T) :
  and_data (map p l) (map q l) = map (fun t => p t && q t) l.
Proof. induction l as [|t l IH]; simpl; [|rewrite IH]; reflexivity. Qed.

Lemma reads_const {T : Type} (r : R) (l : list T) : reads (fun _ => r) l (PyFloat r).
Proof. constructor; reflexivity. Qed.

(** ** The validation of [value_at_1] *)

Lemma check_value_at_1_valid (k : kind) (v : R) :
  valid_value k v -> check_value_at_1 v (name k) = Ok tt.
Proof.
  intros [H0 H1]. unfold check_value_at_1.
  destruct k; simpl in *;
    rewrite ?(Rleb_true _ _ H0), ?(Rltb_true _ _ H0), (Rltb_true _ _ H1);
    reflexivity.
Qed.

Lemma check_value_at_1_invalid (k : kind) (v : R) :
  ~ valid_value k v ->
  check_value_at_1 v (name k) = Raise (ValueError_value_at_1 (negb (permits_zero k)) v).
Proof.
  intros H. unfold check_value_at_1, valid_value in *.
  destruct k; simpl in *;
    try (destruct (Rleb_spec 0 v)); try (destruct (Rltb_spec 0 v));
    destruct (Rltb_spec v 1); simpl; try reflexivity; exfalso; apply H; lra.
Qed.

(** A kind outside the eight passes through the strict check first. *)
Lemma check_value_at_1_unrecognized (sigmoid : string) (v : R) :
  ~ recognized sigmoid ->
  check_value_at_1 v sigmoid =
  if Rltb 0 v && Rltb v 1 then Ok tt else Raise (ValueError_value_at_1 true v).
Proof.
  intros H. unfold check_value_at_1.
  destruct (String.eqb_spec sigmoid "cosine") as [E|_];
    [exfalso; apply H; exists cosine; exact E|].
  destruct (String.eqb_spec sigmoid "linear") as [E|_];
    [exfalso; apply H; exists linear; exact E|].
  destruct (String.eqb_spec sigmoid "quadratic") as [E|_];
    [exfalso; apply H; exists quadratic; exact E|].
  simpl. destruct (Rltb 0 v && Rltb v 1); reflexivity.
Qed.

Lemma unrecognized_dispatch (sigmoid : string) :
  ~ recognized sigmoid ->
  forall k, (sigmoid =? name k)%string = false.
Proof.
  intros H k. destruct (String.eqb_spec sigmoid (name k)) as [E|_]; [|reflexivity].
  exfalso; apply H; exists k; exact E.
Qed.

(** ** [_sigmoids] and [_sigmoids_tensor], element by element *)

Lemma _sigmoids_elementwise (k : kind) (v : R) (x : array R) :
  valid_value k v ->
  _sigmoids x v (name k) = Ok (mk_array (shape x) (map (sigmoid_at k v) (data x))).
Proof.
  intros Hv. unfold _sigmoids. rewrite (check_value_at_1_valid k v Hv).
  destruct k; cbn -[pow cos acos PI]; try reflexivity; unfold np_where, amap; cbn -[pow cos acos PI];
    rewrite !map_map;
    match goal with
    | |- context [where_data (map ?c ?l) (NdArray (mk_array ?sh (map ?f ?l))) (PyFloat ?r)] =>
        rewrite (where_data_reads c f (fun _ => r) l _ _
                   (reads_ndarray f l sh) (reads_const r l))
    end; reflexivity.
Qed.

Lemma _sigmoids_tensor_elementwise (k : kind) (v : R) (x : array R) :
  valid_value k v ->
  _sigmoids_tensor x v (name k) =
  let r := mk_array (shape x) (map (sigmoid_at k v) (data x)) in
  Ok (match k with cosine => NdArray r | _ => Tensor r end).
Proof.
  intros Hv. unfold _sigmoids_tensor. rewrite (check_value_at_1_valid k v Hv).
  destruct k; cbn -[pow cos acos PI]; try reflexivity;
    unfold np_where, amap; cbn -[pow cos acos PI];
    rewrite !map_map;
    match goal with
    | |- context [where_data (map ?c ?l) (Tensor (mk_array ?sh (map ?f ?l))) (PyFloat ?r)] =>
        rewrite (where_data_reads c f (fun _ => r) l _ _
                   (reads_tensor f l sh) (reads_const r l))
    end; reflexivity.
Qed.

Lemma _sigmoids_invalid (k : kind) (v : R) (x : array R) :
  ~ valid_value k v ->
  _sigmoids x v (name k) = Raise (ValueError_value_at_1 (negb (permits_zero k)) v).
Proof.
  intros H. unfold _sigmoids. rewrite (check_value_at_1_invalid k v H). reflexivity.
Qed.

Lemma _sigmoids_tensor_invalid (k : kind) (v : R) (x : array R) :
  ~ valid_value k v ->
  _sigmoids_tensor x v (name k) = Raise (ValueError_value_at_1 (negb (permits_zero k)) v).
Proof.
  intros H. unfold _sigmoids_tensor. rewrite (check_value_at_1_invalid k v H). reflexivity.
Qed.

Lemma _sigmoids_unrecognized (sigmoid : string) (v : R) (x : array R) :
  ~ recognized sigmoid ->
  _sigmoids x v sigmoid =
  if Rltb 0 v && Rltb v 1 then Raise (ValueError_unknown_sigmoid sigmoid)
  else Raise (ValueError_value_at_1 true v).
Proof.
  intros H. unfold _sigmoids. rewrite (check_value_at_1_unrecognized _ v H).
  destruct (Rltb 0 v && Rltb v 1); [|reflexivity]. cbn [bind].
  pose proof (unrecognized_dispatch _ H) as D.
  rewrite (D gaussian : (_ =? "gaussian")%string = _),
    (D hyperbolic : (_ =? "hyperbolic")%string = _),
    (D long_tail : (_ =? "long_tail")%string = _),
    (D reciprocal : (_ =? "reciprocal")%string = _),
    (D cosine : (_ =? "cosine")%string = _),
    (D linear : (_ =? "linear")%string = _),
    (D quadratic : (_ =? "quadratic")%string = _),
    (D tanh_squared : (_ =? "tanh_squared")%string = _).
  reflexivity.
Qed.

Lemma _sigmoids_tensor_unrecognized (sigmoid : string) (v : R) (x : array R) :
  ~ recognized sigmoid ->
  _sigmoids_tensor x v sigmoid =
  if Rltb 0 v && Rltb v 1 then Raise (ValueError_unknown_sigmoid sigmoid)
  else Raise (ValueError_value_at_1 true v).
Proof.
  intros H. unfold _sigmoids_tensor. rewrite (check_value_at_1_unrecognized _ v H).
  destruct (Rltb 0 v && Rltb v 1); [|reflexivity]. cbn [bind].
  pose proof (unrecognized_dispatch _ H) as D.
  rewrite (D gaussian : (_ =? "gaussian")%string = _),
    (D hyperbolic : (_ =? "hyperbolic")%string = _),
    (D long_tail : (_ =? "long_tail")%string = _),
    (D reciprocal : (_ =? "reciprocal")%string = _),
    (D cosine : (_ =? "cosine")%string = _),
    (D linear : (_ =? "linear")%string = _),
    (D quadratic : (_ =? "quadratic")%string = _),
    (D tanh_squared : (_ =? "tanh_squared")%string = _).
  reflexivity.
Qed.

(** ** [tolerance] and [tolerance_tensor], element by element *)

Lemma finish_map (x : np_input) (f : R -> R) :
  finish x (mk_array (shape (as_array x)) (map f (data (as_array x)))) =
  Ok (elementwise f x).
Proof. destruct x; reflexivity. Qed.

Lemma in_bounds_data (lower upper : R) (xa : array R) :
  logical_and (amap (fun xi => Rleb lower xi) xa) (amap (fun xi => Rleb xi upper) xa) =
  mk_array (shape xa) (map (inside lower upper) (data xa)).
Proof. unfold logical_and, amap; simpl. rewrite and_data_map. reflexivity. Qed.

Lemma distance_data (lower upper margin : R) (xa : array R) :
  amap (fun t => t / margin)
       (np_where (amap (fun xi => Rltb xi lower) xa)
                 (NdArray (amap (fun xi => lower - xi) xa))
                 (NdArray (amap (fun xi => xi - upper) xa))) =
  mk_array (shape xa) (map (distance lower upper margin) (data xa)).
Proof.
  unfold amap, np_where; simpl.
  rewrite (where_data_reads _ _ _ _ _ _ (reads_ndarray _ _ _) (reads_ndarray _ _ _)).
  rewrite map_map. reflexivity.
Qed.

Lemma tolerance_margin_0 (x : np_input) (lower upper : R) (sigmoid : string) (v : R) :
  lower <= upper ->
  tolerance x (lower, upper) 0 sigmoid v =
  Ok (elementwise (indicator_at lower upper) x).
Proof.
  intros Hb. unfold tolerance.
  rewrite (Rltb_false _ _ Hb), (Rltb_false 0 0) by lra.
  rewrite Reqb_true, in_bounds_data. cbn [bind]. unfold np_where. cbn [shape data].
  rewrite (where_data_reads _ _ _ _ _ _ (reads_const 1 _) (reads_const 0 _)).
  apply (finish_map x (indicator_at lower upper)).
Qed.

Lemma tolerance_elementwise (x : np_input) (lower upper margin : R) (k : kind) (v : R) :
  lower <= upper -> 0 < margin -> valid_value k v ->
  tolerance x (lower, upper) margin (name k) v =
  Ok (elementwise (score_at k lower upper margin v) x).
Proof.
  intros Hb Hm Hv. unfold tolerance.
  rewrite (Rltb_false _ _ Hb), (Rltb_false margin 0), (Reqb_false margin 0) by lra.
  rewrite in_bounds_data, distance_data, (_sigmoids_elementwise k v _ Hv).
  cbn [bind shape data]. unfold np_where. cbn [shape data]. rewrite map_map.
  rewrite (where_data_reads _ _ _ _ _ _ (reads_const 1 _) (reads_ndarray _ _ _)).
  apply (finish_map x (score_at k lower upper margin v)).
Qed.

Lemma Ok_inj {T : Type} (a b : T) : Ok a = Ok b -> a = b.
Proof. intros H; injection H; auto. Qed.

Lemma torch_where_reads {T : Type} (c : T -> bool) (f g : T -> R) (l : list T)
    (sh : list nat) (a b : pyval) :
  reads f l a -> reads g l b ->
  torch_accepts a = true -> torch_accepts b = true ->
  torch_where (mk_array sh (map c l)) a b =
  Ok (mk_array sh (map (fun t => if c t then f t else g t) l)).
Proof.
  intros Ha Hb Ta Tb. unfold torch_where. rewrite Ta, Tb. cbn [andb shape data].
  rewrite (where_data_reads c f g l a b Ha Hb). reflexivity.
Qed.

Lemma distance_data_tensor (lower upper margin : R) (x : array R) :
  (do w <- torch_where (amap (fun xi => Rltb xi lower) x)
                       (Tensor (amap (fun xi => lower - xi) x))
                       (Tensor (amap (fun xi => xi - upper) x));
   Ok (amap (fun t => t / margin) w)) =
  Ok (mk_array (shape x) (map (distance lower upper margin) (data x))).
Proof.
  unfold amap at 1 2 3.
  rewrite (torch_where_reads _ _ _ _ _ _ _ (reads_tensor _ _ _) (reads_tensor _ _ _)
             eq_refl eq_refl).
  cbn [bind]. unfold amap; cbn [shape data]. rewrite map_map. reflexivity.
Qed.

Lemma tolerance_tensor_margin_0 (x : array R) (lower upper : R) (sigmoid : string) (v : R) :
  lower <= upper ->
  tolerance_tensor x (lower, upper) 0 sigmoid v =
  Ok (Tensor (mk_array (shape x) (map (indicator_at lower upper) (data x)))).
Proof.
  intros Hb. unfold tolerance_tensor.
  rewrite (Rltb_false _ _ Hb), (Rltb_false 0 0) by lra.
  rewrite Reqb_true, in_bounds_data.
  rewrite (torch_where_reads _ _ _ _ _ _ _ (reads_const 1 _) (reads_const 0 _)
             eq_refl eq_refl).
  reflexivity.
Qed.

(** After validation with [margin <> 0], [tolerance_tensor] is the last
    [torch.where] applied to what [_sigmoids_tensor] returns. *)
Lemma tolerance_tensor_unfold (x : array R) (lower upper margin : R)
    (sigmoid : string) (v : R) :
  lower <= upper -> 0 < margin ->
  tolerance_tensor x (lower, upper) margin sigmoid v =
  do s <- _sigmoids_tensor
            (mk_array (shape x) (map (distance lower upper margin) (data x)))
            (float32 v) sigmoid;
  do value <- torch_where (mk_array (shape x) (map (inside lower upper) (data x)))
                          (PyFloat 1) s;
  Ok (Tensor value).
Proof.
  intros Hb Hm. unfold tolerance_tensor.
  rewrite (Rltb_false _ _ Hb), (Rltb_false margin 0), (Reqb_false margin 0) by lra.
  rewrite in_bounds_data.
  pose proof (distance_data_tensor lower upper margin x) as D.
  destruct (torch_where (amap (fun xi => Rltb xi lower) x) _ _) as [w|e];
    cbn [bind] in *; [|discriminate].
  apply Ok_inj in D. rewrite D.
  destruct (_sigmoids_tensor _ (float32 v) sigmoid); reflexivity.
Qed.

Lemma tolerance_tensor_elementwise (x : array R) (lower upper margin : R) (k : kind) (v : R) :
  lower <= upper -> 0 < margin -> valid_value k (float32 v) -> k <> cosine ->
  tolerance_tensor x (lower, upper) margin (name k) v =
  Ok (Tensor (mk_array (shape x)
                (map (score_at k lower upper margin (float32 v)) (data x)))).
Proof.
  intros Hb Hm Hv Hk.
  rewrite (tolerance_tensor_unfold _ _ _ _ _ _ Hb Hm).
  rewrite (_sigmoids_tensor_elementwise k (float32 v) _ Hv). cbn [bind shape data].
  rewrite map_map.
  destruct k; try contradiction;
    rewrite (torch_where_reads _ _ _ _ _ _ _ (reads_const 1 _) (reads_tensor _ _ _)
               eq_refl eq_refl); reflexivity.
Qed.

(** In the [cosine] branch the evaluator's result is a numpy array, and the
    last [torch.where] refuses it. *)
Lemma tolerance_tensor_cosine (x : array R) (lower upper margin v : R) :
  lower <= upper -> 0 < margin -> valid_value cosine (float32 v) ->
  tolerance_tensor x (lower, upper) margin "cosine" v = Raise TypeError_where.
Proof.
  intros Hb Hm Hv.
  rewrite (tolerance_tensor_unfold _ _ _ _ _ _ Hb Hm).
  rewrite (_sigmoids_tensor_elementwise cosine (float32 v) _ Hv). reflexivity.
Qed.

(** ** Failures of validation *)

Lemma tolerance_bounds_error (x : np_input) (lower upper margin : R)
    (sigmoid : string) (v : R) :
  upper < lower -> tolerance x (lower, upper) margin sigmoid v = Raise ValueError_bounds.
Proof. intros H. unfold tolerance. rewrite (Rltb_true _ _ H). reflexivity. Qed.

Lemma tolerance_tensor_bounds_error (x : array R) (lower upper margin : R)
    (sigmoid : string) (v : R) :
  upper < lower ->
  tolerance_tensor x (lower, upper) margin sigmoid v = Raise ValueError_bounds.
Proof. intros H. unfold tolerance_tensor. rewrite (Rltb_true _ _ H). reflexivity. Qed.

Lemma tolerance_margin_error (x : np_input) (lower upper margin : R)
    (sigmoid : string) (v : R) :
  lower <= upper -> margin < 0 ->
  tolerance x (lower, upper) margin sigmoid v = Raise ValueError_margin.
Proof.
  intros Hb H. unfold tolerance. rewrite (Rltb_false _ _ Hb), (Rltb_true _ _ H).
  reflexivity.
Qed.

Lemma tolerance_tensor_margin_error (x : array R) (lower upper margin : R)
    (sigmoid : string) (v : R) :
  lower <= upper -> margin < 0 ->
  tolerance_tensor x (lower, upper) margin sigmoid v = Raise ValueError_margin.
Proof.
  intros Hb H. unfold tolerance_tensor. rewrite (Rltb_false _ _ Hb), (Rltb_true _ _ H).
  reflexivity.
Qed.

(** With a positive margin, a failure of [_sigmoids] is the failure of
    [tolerance]. *)
Lemma tolerance_sigmoid_error (x : np_input) (lower upper margin : R)
    (sigmoid : string) (v : R) (e : exn) :
  lower <= upper -> 0 < margin ->
  (forall d, _sigmoids d v sigmoid = Raise e) ->
  tolerance x (lower, upper) margin sigmoid v = Raise e.
Proof.
  intros Hb Hm He. unfold tolerance.
  rewrite (Rltb_false _ _ Hb), (Rltb_false margin 0), (Reqb_false margin 0) by lra.
  rewrite He. reflexivity.
Qed.

Lemma tolerance_tensor_sigmoid_error (x : array R) (lower upper margin : R)
    (sigmoid : string) (v : R) (e : exn) :
  lower <= upper -> 0 < margin ->
  (forall d, _sigmoids_tensor d (float32 v) sigmoid = Raise e) ->
  tolerance_tensor x (lower, upper) margin sigmoid v = Raise e.
Proof.
  intros Hb Hm He. rewrite (tolerance_tensor_unfold _ _ _ _ _ _ Hb Hm), He.
  reflexivity.
Qed.

(** ** Facts about the elementary functions *)

Lemma cosh_exp (y t : R) : exp y = t -> cosh y = (t + / t) / 2.
Proof. intros E. unfold cosh. rewrite exp_Ropp, E. reflexivity. Qed.

Lemma cosh_ge_1 (y : R) : 1 <= cosh y.
Proof.
  pose proof (exp_pos y) as Ht. rewrite (cosh_exp y _ eq_refl).
  set (t := exp y) in *.
  assert (H : t + / t - 2 = (t - 1) ^ 2 / t) by (field; lra).
  assert (0 <= (t - 1) ^ 2 / t).
  { apply Rle_mult_inv_pos; [apply pow2_ge_0 | assumption]. }
  lra.
Qed.

Lemma cosh_pos (y : R) : 0 < cosh y.
Proof. pose proof (cosh_ge_1 y); lra. Qed.

Lemma cosh_even (y : R) : cosh (- y) = cosh y.
Proof. unfold cosh. rewrite Ropp_involutive. lra. Qed.

Lemma cosh_increasing (a b : R) : 0 <= a -> a <= b -> cosh a <= cosh b.
Proof.
  intros Ha Hab.
  rewrite (cosh_exp a _ eq_refl), (cosh_exp b _ eq_refl).
  assert (H1 : 1 <= exp a).
  { rewrite <- exp_0. destruct Ha as [Ha|<-]; [left; apply exp_increasing; assumption | right; reflexivity]. }
  assert (H2 : exp a <= exp b).
  { destruct Hab as [Hab|<-]; [left; apply exp_increasing; assumption | right; reflexivity]. }
  set (s := exp a) in *. set (t := exp b) in *.
  assert (E : (t + / t) - (s + / s) = (t - s) * (s * t - 1) / (s * t)) by (field; lra).
  assert (0 <= (t - s) * (s * t - 1) / (s * t)).
  { assert (1 <= s * t) by nra.
    apply Rle_mult_inv_pos; [apply Rmult_le_pos; lra | lra]. }
  lra.
Qed.

Lemma cosh_arccosh (y : R) : 1 <= y -> cosh (arccosh y) = y.
Proof.
  intros Hy. unfold arccosh.
  assert (H0 : 0 <= y ^ 2 - 1) by nra.
  pose proof (sqrt_pos (y ^ 2 - 1)) as Hs.
  pose proof (sqrt_sqrt _ H0) as Hss.
  rewrite (cosh_exp _ (y + sqrt (y ^ 2 - 1))) by (apply exp_ln; lra).
  set (r := sqrt (y ^ 2 - 1)) in *.
  assert (E : / (y + r) = y - r).
  { apply Rmult_eq_reg_l with (y + r); [|lra]. rewrite Rinv_r by lra. nra. }
  rewrite E. lra.
Qed.

Lemma arccosh_pos (y : R) : 1 < y -> 0 < arccosh y.
Proof.
  intros Hy. unfold arccosh. rewrite <- ln_1.
  pose proof (sqrt_pos (y ^ 2 - 1)).
  apply ln_increasing; lra.
Qed.

Lemma tanh_exp (y t : R) : exp y = t -> 0 < t -> tanh y = (t ^ 2 - 1) / (t ^ 2 + 1).
Proof.
  intros E Ht. unfold tanh, sinh, cosh. rewrite exp_Ropp, E. field. split; [nra | lra].
Qed.

Lemma tanh_sqr (y : R) : 1 - tanh y ^ 2 = / (cosh y) ^ 2.
Proof.
  pose proof (exp_pos y) as Ht.
  rewrite (tanh_exp y _ eq_refl Ht), (cosh_exp y _ eq_refl).
  set (t := exp y) in *. field. split; [lra | nra].
Qed.

Lemma tanh_arctanh (y : R) : -1 < y < 1 -> tanh (arctanh y) = y.
Proof.
  intros Hy. unfold arctanh.
  assert (Hq : 0 < (1 + y) / (1 - y)) by (apply Rdiv_lt_0_compat; lra).
  assert (Hs : 0 < sqrt ((1 + y) / (1 - y))) by (apply sqrt_lt_R0; assumption).
  assert (E : exp (ln ((1 + y) / (1 - y)) / 2) = sqrt ((1 + y) / (1 - y))).
  { apply ln_inv; [apply exp_pos | assumption |].
    rewrite ln_exp. 
    assert (ln (sqrt ((1 + y) / (1 - y)) * sqrt ((1 + y) / (1 - y))) = ln ((1 + y) / (1 - y))).
    { rewrite sqrt_sqrt by lra. reflexivity. }
    rewrite ln_mult in H by assumption. lra. }
  rewrite (tanh_exp _ _ E Hs).
  replace (sqrt ((1 + y) / (1 - y)) ^ 2) with ((1 + y) / (1 - y)).
  - field. split; [lra|]. intros C. 
    assert ((1 + y) + (1 - y) = 0 -> False) by lra. apply H. lra.
  - simpl. rewrite Rmult_1_r, sqrt_sqrt by lra. reflexivity.
Qed.

Lemma arctanh_pos (y : R) : 0 < y < 1 -> 0 < arctanh y.
Proof.
  intros Hy. unfold arctanh.
  assert (1 < (1 + y) / (1 - y)).
  { apply Rmult_lt_reg_r with (1 - y); [lra|]. unfold Rdiv. rewrite Rmult_assoc, Rinv_l by lra. lra. }
  assert (0 < ln ((1 + y) / (1 - y))) by (rewrite <- ln_1; apply ln_increasing; lra).
  lra.
Qed.

Lemma acos_pos (y : R) : -1 <= y < 1 -> 0 < acos y <= PI.
Proof.
  intros Hy. pose proof (acos_bound y) as [H0 H1]. split; [|assumption].
  destruct H0 as [H0|H0]; [assumption|].
  pose proof (cos_acos y ltac:(lra)) as C. rewrite <- H0, cos_0 in C. lra.
Qed.

Lemma acos_lt_PI (y : R) : -1 < y <= 1 -> acos y < PI.
Proof.
  intros Hy. pose proof (acos_bound y) as [H0 H1].
  destruct H1 as [H1|H1]; [assumption|].
  pose proof (cos_acos y ltac:(lra)) as C. rewrite H1, cos_PI in C. lra.
Qed.

Lemma exp_le (a b : R) : a <= b -> exp a <= exp b.
Proof. intros [H| ->]; [left; apply exp_increasing; assumption | right; reflexivity]. Qed.

Lemma ln_neg (v : R) : 0 < v < 1 -> ln v < 0.
Proof. intros H. rewrite <- ln_1. apply ln_increasing; lra. Qed.

Lemma inv_gt_1 (v : R) : 0 < v < 1 -> 1 < 1 / v.
Proof.
  intros H. apply Rmult_lt_reg_r with v; [lra|].
  unfold Rdiv. rewrite Rmult_assoc, Rinv_l by lra. lra.
Qed.

(** The scale of each shape is positive; for the three piecewise shapes it is
    at most 1, and equal to 1 only at [value_at_1 = 0]. *)
Lemma gaussian_scale (v : R) :
  0 < v < 1 -> 0 < sqrt (-2 * ln v) /\ sqrt (-2 * ln v) ^ 2 = -2 * ln v.
Proof.
  intros H. pose proof (ln_neg v H). split.
  - apply sqrt_lt_R0; lra.
  - apply pow2_sqrt; lra.
Qed.

Lemma long_tail_scale (v : R) :
  0 < v < 1 -> 0 < sqrt (1 / v - 1) /\ sqrt (1 / v - 1) ^ 2 = 1 / v - 1.
Proof.
  intros H. pose proof (inv_gt_1 v H). split.
  - apply sqrt_lt_R0; lra.
  - apply pow2_sqrt; lra.
Qed.

Lemma quadratic_scale (v : R) :
  0 <= v < 1 -> 0 < sqrt (1 - v) <= 1 /\ sqrt (1 - v) ^ 2 = 1 - v.
Proof.
  intros H. repeat split.
  - apply sqrt_lt_R0; lra.
  - pose proof (sqrt_le_1 (1 - v) 1 ltac:(lra) ltac:(lra) ltac:(lra)) as L.
    rewrite sqrt_1 in L. exact L.
  - apply pow2_sqrt; lra.
Qed.

Lemma cosine_scale (v : R) :
  0 <= v < 1 -> 0 < acos (2 * v - 1) / PI <= 1.
Proof.
  intros H. pose proof PI_RGT_0 as HPI.
  destruct (acos_pos (2 * v - 1) ltac:(lra)) as [H0 H1]. split.
  - apply Rdiv_lt_0_compat; lra.
  - apply Rmult_le_reg_r with PI; [lra|].
    unfold Rdiv. rewrite Rmult_assoc, Rinv_l by lra. lra.
Qed.

Lemma tanh_squared_scale (v : R) :
  0 < v < 1 -> 0 < arctanh (sqrt (1 - v)).
Proof.
  intros H. destruct (quadratic_scale v ltac:(lra)) as [[H0 H1] H2].
  apply arctanh_pos. split; [assumption|].
  destruct H1 as [H1|H1]; [assumption|]. rewrite H1 in H2. lra.
Qed.

(** ** The eight shapes as functions of the normalised distance *)


Lemma inv_inv_div (v : R) : 0 < v -> 1 / (1 / v) = v.
Proof. intros H. field. lra. Qed.

Lemma sigmoid_at_1 (k : kind) (v : R) : valid_value k v -> sigmoid_at k v 1 = v.
Proof.
  intros [H0 H1]. destruct k; cbn -[pow cos acos PI] in *; rewrite ?Rmult_1_l.
  - destruct (gaussian_scale v ltac:(lra)) as [_ E]. rewrite E.
    replace (-0.5 * (-2 * ln v)) with (ln v) by lra. apply exp_ln; lra.
  - pose proof (inv_gt_1 v ltac:(lra)).
    rewrite cosh_arccosh by lra. apply inv_inv_div; lra.
  - destruct (long_tail_scale v ltac:(lra)) as [_ E]. rewrite E.
    replace (1 / v - 1 + 1) with (1 / v) by lra. apply inv_inv_div; lra.
  - rewrite Rabs_R1, Rmult_1_l.
    replace (1 / v - 1 + 1) with (1 / v) by lra. apply inv_inv_div; lra.
  - destruct (cosine_scale v ltac:(lra)) as [S0 S1].
    pose proof PI_RGT_0 as HPI.
    rewrite Rabs_pos_eq by lra.
    destruct (Rltb_spec (acos (2 * v - 1) / PI) 1) as [L|L].
    + replace (PI * (acos (2 * v - 1) / PI)) with (acos (2 * v - 1)) by (field; lra).
      rewrite cos_acos by lra. lra.
    + assert (E : acos (2 * v - 1) = PI).
      { assert (Q : acos (2 * v - 1) / PI = 1) by lra.
        replace (acos (2 * v - 1)) with (acos (2 * v - 1) / PI * PI) by (field; lra).
        rewrite Q. lra. }
      destruct H0 as [H0|H0]; [|lra].
      pose proof (acos_lt_PI (2 * v - 1) ltac:(lra)). lra.
  - rewrite Rabs_pos_eq by lra.
    destruct (Rltb_spec (1 - v) 1); lra.
  - destruct (quadratic_scale v ltac:(lra)) as [[S0 S1] E].
    rewrite Rabs_pos_eq by lra.
    destruct (Rltb_spec (sqrt (1 - v)) 1) as [L|L]; [lra|].
    assert (E1 : sqrt (1 - v) = 1) by lra. rewrite E1 in E. lra.
  - destruct (quadratic_scale v ltac:(lra)) as [[S0 S1] E].
    rewrite tanh_arctanh.
    + lra.
    + split; [lra|]. destruct S1 as [S1|S1]; [assumption|]. rewrite S1 in E. lra.
Qed.

Lemma recip_range (c : R) : 1 <= c -> 0 < 1 / c <= 1.
Proof.
  intros H. assert (0 < / c) by (apply Rinv_0_lt_compat; lra).
  split; [lra|]. apply Rmult_le_reg_r with c; [lra|].
  unfold Rdiv. rewrite Rmult_assoc, Rinv_l by lra. lra.
Qed.

Lemma recip_decreasing (c d : R) : 0 < c -> c <= d -> 1 / d <= 1 / c.
Proof.
  intros Hc Hd. unfold Rdiv. rewrite !Rmult_1_l.
  apply Rinv_le_contravar; assumption.
Qed.

Lemma sigmoid_at_range (k : kind) (v x : R) :
  valid_value k v -> k <> linear \/ 0 <= x -> 0 <= sigmoid_at k v x <= 1.
Proof.
  intros [H0 H1] Hx. destruct k; cbn -[pow cos acos PI] in *.
  - split; [left; apply exp_pos|]. rewrite <- exp_0. apply exp_le.
    pose proof (pow2_ge_0 (x * sqrt (-2 * ln v))). lra.
  - pose proof (recip_range _ (cosh_ge_1 (x * arccosh (1 / v)))). lra.
  - pose proof (pow2_ge_0 (x * sqrt (1 / v - 1))).
    pose proof (recip_range ((x * sqrt (1 / v - 1)) ^ 2 + 1) ltac:(lra)). lra.
  - pose proof (inv_gt_1 v ltac:(lra)). pose proof (Rabs_pos x).
    assert (0 <= Rabs x * (1 / v - 1)) by (apply Rmult_le_pos; lra).
    pose proof (recip_range (Rabs x * (1 / v - 1) + 1) ltac:(lra)). lra.
  - destruct (Rltb (Rabs (x * (acos (2 * v - 1) / PI))) 1); [|lra].
    pose proof (COS_bound (PI * (x * (acos (2 * v - 1) / PI)))). lra.
  - destruct Hx as [Hx|Hx]; [contradiction|].
    assert (0 <= x * (1 - v)) by (apply Rmult_le_pos; lra).
    destruct (Rltb_spec (Rabs (x * (1 - v))) 1) as [L|L]; [|lra].
    apply Rabs_def2 in L. lra.
  - destruct (Rltb_spec (Rabs (x * sqrt (1 - v))) 1) as [L|L]; [|lra].
    pose proof (pow2_ge_0 (x * sqrt (1 - v))).
    apply Rabs_def2 in L. 
    assert ((x * sqrt (1 - v)) ^ 2 <= 1) by nra. lra.
  - rewrite tanh_sqr.
    pose proof (cosh_ge_1 (x * arctanh (sqrt (1 - v)))) as C.
    assert (Q : 1 <= cosh (x * arctanh (sqrt (1 - v))) ^ 2) by nra.
    pose proof (recip_range _ Q). lra.
Qed.

Lemma sqr_scaled_le (x1 x2 s : R) :
  0 <= x1 <= x2 -> 0 <= s -> (x1 * s) ^ 2 <= (x2 * s) ^ 2.
Proof.
  intros Hx Hs. apply pow_incr. split; [apply Rmult_le_pos; lra|].
  apply Rmult_le_compat_r; lra.
Qed.

Lemma sigmoid_at_decreasing (k : kind) (v x1 x2 : R) :
  valid_value k v -> 0 <= x1 <= x2 -> sigmoid_at k v x2 <= sigmoid_at k v x1.
Proof.
  intros Hv Hx.
  pose proof (sigmoid_at_range k v x1 Hv (or_intror (proj1 Hx))) as [R1 _].
  destruct Hv as [H0 H1]. destruct k; cbn -[pow cos acos PI] in *.
  - destruct (gaussian_scale v ltac:(lra)) as [S _].
    pose proof (sqr_scaled_le x1 x2 _ Hx (Rlt_le _ _ S)).
    apply exp_le. lra.
  - pose proof (arccosh_pos _ (inv_gt_1 v ltac:(lra))) as S.
    apply recip_decreasing; [apply cosh_pos|].
    apply cosh_increasing; [apply Rmult_le_pos; lra|].
    apply Rmult_le_compat_r; lra.
  - destruct (long_tail_scale v ltac:(lra)) as [S _].
    pose proof (sqr_scaled_le x1 x2 _ Hx (Rlt_le _ _ S)).
    pose proof (pow2_ge_0 (x1 * sqrt (1 / v - 1))).
    apply recip_decreasing; lra.
  - pose proof (inv_gt_1 v ltac:(lra)).
    rewrite !Rabs_pos_eq by lra.
    assert (0 <= x1 * (1 / v - 1)) by (apply Rmult_le_pos; lra).
    assert (x1 * (1 / v - 1) <= x2 * (1 / v - 1)) by (apply Rmult_le_compat_r; lra).
    apply recip_decreasing; lra.
  - destruct (cosine_scale v ltac:(lra)) as [S0 S1]. pose proof PI_RGT_0 as HPI.
    set (s := acos (2 * v - 1) / PI) in *.
    assert (P1 : 0 <= x1 * s) by (apply Rmult_le_pos; lra).
    assert (P2 : x1 * s <= x2 * s) by (apply Rmult_le_compat_r; lra).
    rewrite (Rabs_pos_eq (x2 * s)) by lra.
    rewrite (Rabs_pos_eq (x1 * s)) in * by lra.
    destruct (Rltb_spec (x2 * s) 1) as [L2|L2]; [|exact R1].
    rewrite (Rltb_true (x1 * s) 1) by lra.
    assert (cos (PI * (x2 * s)) <= cos (PI * (x1 * s))) by (apply cos_decr_1; nra).
    lra.
  - assert (P1 : 0 <= x1 * (1 - v)) by (apply Rmult_le_pos; lra).
    assert (P2 : x1 * (1 - v) <= x2 * (1 - v)) by (apply Rmult_le_compat_r; lra).
    rewrite (Rabs_pos_eq (x2 * (1 - v))) by lra.
    rewrite (Rabs_pos_eq (x1 * (1 - v))) in * by lra.
    destruct (Rltb_spec (x2 * (1 - v)) 1) as [L2|L2]; [|exact R1].
    rewrite (Rltb_true (x1 * (1 - v)) 1) by lra. lra.
  - destruct (quadratic_scale v ltac:(lra)) as [[S _] _].
    set (s := sqrt (1 - v)) in *.
    assert (P1 : 0 <= x1 * s) by (apply Rmult_le_pos; lra).
    assert (P2 : x1 * s <= x2 * s) by (apply Rmult_le_compat_r; lra).
    pose proof (sqr_scaled_le x1 x2 s Hx (Rlt_le _ _ S)).
    rewrite (Rabs_pos_eq (x2 * s)) by lra.
    rewrite (Rabs_pos_eq (x1 * s)) in * by lra.
    destruct (Rltb_spec (x2 * s) 1) as [L2|L2]; [|exact R1].
    rewrite (Rltb_true (x1 * s) 1) by lra. lra.
  - pose proof (tanh_squared_scale v ltac:(lra)) as S. rewrite !tanh_sqr.
    set (s := arctanh (sqrt (1 - v))) in *.
    assert (P1 : 0 <= x1 * s) by (apply Rmult_le_pos; lra).
    assert (P2 : x1 * s <= x2 * s) by (apply Rmult_le_compat_r; lra).
    pose proof (cosh_increasing _ _ P1 P2) as C.
    pose proof (cosh_ge_1 (x1 * s)) as C1.
    assert (Q : cosh (x1 * s) ^ 2 <= cosh (x2 * s) ^ 2) by (apply pow_incr; lra).
    assert (Q1 : 0 < cosh (x1 * s) ^ 2) by nra.
    pose proof (recip_decreasing _ _ Q1 Q). lra.
Qed.

(** ** One element of the score *)

Lemma tolerance_valid (x : np_input) (lower upper margin : R) (k : kind) (v : R) :
  lower <= upper -> 0 <= margin -> valid_value k v ->
  tolerance x (lower, upper) margin (name k) v =
  Ok (elementwise (value_at k lower upper margin v) x).
Proof.
  intros Hb Hm Hv. unfold value_at.
  destruct (Reqb_spec margin 0) as [->|Hne].
  - apply tolerance_margin_0; assumption.
  - apply tolerance_elementwise; [assumption | lra | assumption].
Qed.

Lemma distance_outside (lower upper margin xi : R) :
  0 < margin -> ~ lower <= xi <= upper -> lower <= upper ->
  0 < distance lower upper margin xi.
Proof.
  intros Hm Hout Hb. unfold distance.
  destruct (Rltb_spec xi lower); apply Rdiv_lt_0_compat; lra.
Qed.

Lemma value_at_inside (k : kind) (lower upper margin v xi : R) :
  lower <= xi <= upper -> value_at k lower upper margin v xi = 1.
Proof.
  intros H. unfold value_at, indicator_at, score_at.
  destruct (inside_spec lower upper xi); [|contradiction].
  destruct (Reqb margin 0); reflexivity.
Qed.

Lemma value_at_outside (k : kind) (lower upper margin v xi : R) :
  ~ lower <= xi <= upper ->
  value_at k lower upper margin v xi =
  if Reqb margin 0 then 0 else sigmoid_at k v (distance lower upper margin xi).
Proof.
  intros H. unfold value_at, indicator_at, score_at.
  destruct (inside_spec lower upper xi); [contradiction|]. reflexivity.
Qed.

Lemma value_at_range (k : kind) (lower upper margin v xi : R) :
  lower <= upper -> 0 <= margin -> valid_value k v ->
  0 <= value_at k lower upper margin v xi <= 1.
Proof.
  intros Hb Hm Hv.
  destruct (inside_spec lower upper xi) as [Hin|Hout].
  - rewrite value_at_inside by assumption. lra.
  - rewrite value_at_outside by assumption.
    destruct (Reqb_spec margin 0) as [E|Hne]; [lra|].
    apply sigmoid_at_range; [assumption|]. right. left.
    apply distance_outside; [lra | assumption | assumption].
Qed.

Lemma distance_at_margin (lower upper margin xi : R) :
  lower <= upper -> 0 < margin ->
  xi = upper + margin \/ xi = lower - margin ->
  ~ lower <= xi <= upper /\ distance lower upper margin xi = 1.
Proof.
  intros Hb Hm Hx. unfold distance. split; [lra|].
  destruct (Rltb_spec xi lower); destruct Hx as [-> | ->]; try lra; field; lra.
Qed.

Lemma value_at_margin (k : kind) (lower upper margin v xi : R) :
  lower <= upper -> 0 < margin -> valid_value k v ->
  xi = upper + margin \/ xi = lower - margin ->
  value_at k lower upper margin v xi = v.
Proof.
  intros Hb Hm Hv Hx.
  destruct (distance_at_margin _ _ _ _ Hb Hm Hx) as [Hout D].
  rewrite value_at_outside by assumption.
  rewrite Reqb_false by lra. rewrite D. apply sigmoid_at_1; assumption.
Qed.

Lemma value_at_decreasing (k : kind) (lower upper margin v x1 x2 : R) :
  lower <= upper -> 0 <= margin -> valid_value k v ->
  farther_out lower upper x1 x2 ->
  value_at k lower upper margin v x2 <= value_at k lower upper margin v x1.
Proof.
  intros Hb Hm Hv Hx.
  assert (O1 : ~ lower <= x1 <= upper) by (destruct Hx; lra).
  assert (O2 : ~ lower <= x2 <= upper) by (destruct Hx; lra).
  rewrite !value_at_outside by assumption.
  destruct (Reqb_spec margin 0) as [E0|Hne]; [lra|].
  apply sigmoid_at_decreasing; [assumption|].
  assert (P : 0 < / margin) by (apply Rinv_0_lt_compat; lra).
  unfold distance, Rdiv.
  destruct Hx as [Hx|Hx].
  - rewrite !Rltb_false by lra. split.
    + apply Rmult_le_pos; lra.
    + apply Rmult_le_compat_r; lra.
  - rewrite !Rltb_true by lra. split.
    + apply Rmult_le_pos; lra.
    + apply Rmult_le_compat_r; lra.
Qed.

Lemma elements_elementwise (f : R -> R) (x : np_input) :
  elements (elementwise f x) = map f (data (as_array x)).
Proof. destruct x; reflexivity. Qed.

Lemma Forall2_map_r {A B : Type} (P : A -> B -> Prop) (f : A -> B) (l : list A) :
  (forall a, P a (f a)) -> Forall2 P l (map f l).
Proof. intros H. induction l; simpl; constructor; auto. Qed.

(** ** The cast to single precision

    [float32] keeps the sign, fixes 0, and never crosses 1 from above: a
    value that the check of [value_at_1] rejects for being [<= 0] or [>= 1]
    is rejected after the cast as well. *)

Lemma Int_part_le (y : R) : IZR (Int_part y) <= y < IZR (Int_part y) + 1.
Proof. destruct (base_Int_part y). lra. Qed.

Lemma Int_part_ge (z : Z) (y : R) : IZR z <= y -> (z <= Int_part y)%Z.
Proof.
  intros H. destruct (Int_part_le y) as [_ U].
  assert (IZR z < IZR (Int_part y + 1)) by (rewrite plus_IZR; lra).
  apply lt_IZR in H0. lia.
Qed.

Lemma nearest_even_bounds (y : R) :
  (Int_part y <= nearest_even y <= Int_part y + 1)%Z.
Proof.
  unfold nearest_even. destruct (Rlt_dec _ _); [lia|].
  destruct (Rlt_dec _ _); [lia|]. destruct (Z.even _); lia.
Qed.

Lemma nearest_even_ge (z : Z) (y : R) : IZR z <= y -> (z <= nearest_even y)%Z.
Proof.
  intros H. pose proof (Int_part_ge z y H). pose proof (nearest_even_bounds y). lia.
Qed.

Lemma nearest_even_le_plus_1 (y : R) : IZR (nearest_even y) <= y + 1.
Proof.
  destruct (nearest_even_bounds y) as [_ U]. apply IZR_le in U.
  rewrite plus_IZR in U. destruct (Int_part_le y). lra.
Qed.

Lemma Rpower_2_pos (a : R) : 0 < Rpower 2 a.
Proof. unfold Rpower. apply exp_pos. Qed.

Lemma ln_2_pos : 0 < ln 2.
Proof. rewrite <- ln_1. apply ln_increasing; lra. Qed.

Lemma Rpower_2_le (a b : R) : a <= b -> Rpower 2 a <= Rpower 2 b.
Proof.
  intros H. unfold Rpower. pose proof ln_2_pos.
  destruct H as [H| ->]; [left; apply exp_increasing; nra | right; reflexivity].
Qed.

Lemma Rpower_2_0 : Rpower 2 0 = 1.
Proof. unfold Rpower. rewrite Rmult_0_l. apply exp_0. Qed.

Lemma Rpower_2_minus_1 : Rpower 2 (-1) = 1 / 2.
Proof.
  unfold Rpower. replace (-1 * ln 2) with (- ln 2) by ring.
  rewrite exp_Ropp, exp_ln by lra. lra.
Qed.

Lemma Rpower_2_23 : Rpower 2 (IZR 23) = IZR 8388608.
Proof.
  replace (IZR 23) with (INR 23) by (rewrite INR_IZR_INZ; reflexivity).
  rewrite Rpower_pow by lra. rewrite pow_IZR. reflexivity.
Qed.

(** The lower end of the binade of [a > 0]. *)
Lemma binade_le (a : R) : 0 < a -> Rpower 2 (IZR (binade a)) <= a.
Proof.
  intros Ha. unfold binade. pose proof ln_2_pos as L.
  destruct (Int_part_le (ln a / ln 2)) as [Lo _].
  assert (IZR (Int_part (ln a / ln 2)) * ln 2 <= ln a).
  { apply Rmult_le_reg_r with (/ ln 2); [apply Rinv_0_lt_compat; lra|].
    rewrite Rmult_assoc, Rinv_r by lra. lra. }
  unfold Rpower. rewrite <- (exp_ln a Ha) at 2.
  destruct H as [H|H]; [left; apply exp_increasing; lra | right; f_equal; lra].
Qed.

Lemma binade_nonneg (a : R) : 1 <= a -> (0 <= binade a)%Z.
Proof.
  intros Ha. unfold binade. apply Int_part_ge. pose proof ln_2_pos as L.
  assert (0 <= ln a).
  { rewrite <- ln_1. destruct Ha as [Ha| <-]; [left; apply ln_increasing; lra | lra]. }
  apply Rmult_le_pos; [lra | left; apply Rinv_0_lt_compat; lra].
Qed.

Lemma float32_0 : float32 0 = 0.
Proof. unfold float32. destruct (Req_dec_T 0 0); [reflexivity | contradiction]. Qed.

Lemma float32_magnitude_nonneg (x : R) (e : Z) :
  0 <= Rpower 2 (IZR (e - 23)) *
       IZR (nearest_even (Rabs x / Rpower 2 (IZR (e - 23)))).
Proof.
  pose proof (Rpower_2_pos (IZR (e - 23))) as P.
  apply Rmult_le_pos; [lra|]. apply IZR_le.
  apply (nearest_even_ge 0). apply Rmult_le_pos; [apply Rabs_pos|].
  left. apply Rinv_0_lt_compat. assumption.
Qed.

Lemma float32_nonneg (x : R) : 0 <= x -> 0 <= float32 x.
Proof.
  intros H. unfold float32. destruct (Req_dec_T x 0); [lra|].
  destruct (Rlt_dec x 0); [lra|]. rewrite Rmult_1_l. apply float32_magnitude_nonneg.
Qed.

Lemma float32_nonpos (x : R) : x <= 0 -> float32 x <= 0.
Proof.
  intros H. unfold float32. destruct (Req_dec_T x 0); [lra|].
  destruct (Rlt_dec x 0); [|lra].
  pose proof (float32_magnitude_nonneg x (Z.max (binade (Rabs x)) (-126))). lra.
Qed.

Lemma float32_ge_1 (x : R) : 1 <= x -> 1 <= float32 x.
Proof.
  intros H. unfold float32. destruct (Req_dec_T x 0); [lra|].
  destruct (Rlt_dec x 0); [lra|]. rewrite Rmult_1_l.
  rewrite Rabs_pos_eq by lra.
  pose proof (binade_nonneg x H) as B. pose proof (binade_le x ltac:(lra)) as L.
  rewrite Z.max_l by lia. set (e := binade x) in *.
  set (ulp := Rpower 2 (IZR (e - 23))).
  assert (U : 0 < ulp) by apply Rpower_2_pos.
  assert (E : Rpower 2 (IZR e) = ulp * IZR 8388608).
  { unfold ulp. rewrite <- Rpower_2_23. unfold Rpower. rewrite <- exp_plus. f_equal.
    rewrite minus_IZR. ring. }
  assert (Y : IZR 8388608 <= x / ulp).
  { apply Rmult_le_reg_r with ulp; [assumption|].
    unfold Rdiv. rewrite Rmult_assoc, Rinv_l by lra. lra. }
  apply nearest_even_ge, IZR_le in Y.
  assert (1 <= Rpower 2 (IZR e)).
  { rewrite <- Rpower_2_0. apply Rpower_2_le. apply (IZR_le 0). assumption. }
  nra.
Qed.

(** A positive [x] is exceeded by at most one unit in the last place, and
    below 1 that unit is at most one half. *)
Lemma float32_small (x : R) : 0 < x <= 1 / 4 -> float32 x <= 3 / 4.
Proof.
  intros H. unfold float32. destruct (Req_dec_T x 0); [lra|].
  destruct (Rlt_dec x 0); [lra|]. rewrite Rmult_1_l.
  rewrite Rabs_pos_eq by lra.
  set (e := Z.max (binade x) (-126)).
  set (ulp := Rpower 2 (IZR (e - 23))).
  assert (U : 0 < ulp) by apply Rpower_2_pos.
  pose proof (nearest_even_le_plus_1 (x / ulp)) as N.
  assert (ulp * (x / ulp) = x) by (field; lra).
  assert (ulp <= 1 / 2).
  { rewrite <- Rpower_2_minus_1. apply Rpower_2_le.
    pose proof (binade_le x ltac:(lra)) as L.
    assert (B : (binade x < 0)%Z).
    { destruct (Z_lt_le_dec (binade x) 0) as [B|B]; [assumption|]. exfalso.
      assert (1 <= Rpower 2 (IZR (binade x))).
      { rewrite <- Rpower_2_0. apply Rpower_2_le. apply (IZR_le 0). assumption. }
      lra. }
    apply (IZR_le (e - 23) (-1)). unfold e. lia. }
  nra.
Qed.

Lemma float32_outside_window (v : R) : ~ 0 < v < 1 -> ~ 0 < float32 v < 1.
Proof.
  intros H [F0 F1]. destruct (Rle_lt_dec v 0) as [L|L].
  - pose proof (float32_nonpos v L). lra.
  - destruct (Rlt_le_dec v 1) as [U|U]; [apply H; lra|].
    pose proof (float32_ge_1 v U). lra.
Qed.

Lemma float32_tenth_valid : valid_value cosine (float32 0.1).
Proof.
  split; cbn [permits_zero].
  - apply float32_nonneg. lra.
  - pose proof (float32_small 0.1 ltac:(lra)). lra.
Qed.

(** ** Recognised and unrecognised shapes *)

Lemma recognized_dec (sigmoid : string) : {k | sigmoid = name k} + {~ recognized sigmoid}.
Proof.
  destruct (string_dec sigmoid "gaussian") as [E|N1]; [left; exists gaussian; exact E|].
  destruct (string_dec sigmoid "hyperbolic") as [E|N2]; [left; exists hyperbolic; exact E|].
  destruct (string_dec sigmoid "long_tail") as [E|N3]; [left; exists long_tail; exact E|].
  destruct (string_dec sigmoid "reciprocal") as [E|N4]; [left; exists reciprocal; exact E|].
  destruct (string_dec sigmoid "cosine") as [E|N5]; [left; exists cosine; exact E|].
  destruct (string_dec sigmoid "linear") as [E|N6]; [left; exists linear; exact E|].
  destruct (string_dec sigmoid "quadratic") as [E|N7]; [left; exists quadratic; exact E|].
  destruct (string_dec sigmoid "tanh_squared") as [E|N8]; [left; exists tanh_squared; exact E|].
  right. intros [k E]. destruct k; simpl in E; contradiction.
Qed.

Lemma bogus_unrecognized : ~ recognized "bogus".
Proof. intros [k E]. destruct k; discriminate E. Qed.

Lemma strict_window (v : R) : 0 < v < 1 -> Rltb 0 v && Rltb v 1 = true.
Proof. intros [H0 H1]. rewrite (Rltb_true _ _ H0), (Rltb_true _ _ H1). reflexivity. Qed.

Lemma strict_window_not (v : R) : ~ 0 < v < 1 -> Rltb 0 v && Rltb v 1 = false.
Proof.
  intros H. destruct (Rltb_spec 0 v), (Rltb_spec v 1); try reflexivity.
  exfalso; apply H; lra.
Qed.

Lemma tolerance_unknown_sigmoid
    (x : np_input) (lower upper margin : R) (sigmoid : string) (v : R) :
  lower <= upper -> 0 < margin -> ~ recognized sigmoid -> 0 < v < 1 ->
  tolerance x (lower, upper) margin sigmoid v = Raise (ValueError_unknown_sigmoid sigmoid).
Proof.
  intros Hb Hm Hs Hv. apply tolerance_sigmoid_error; [assumption | assumption |].
  intros d. rewrite (_sigmoids_unrecognized _ _ _ Hs), (strict_window _ Hv). reflexivity.
Qed.

Lemma tolerance_invalid_value
    (x : np_input) (lower upper margin : R) (k : kind) (v : R) :
  lower <= upper -> 0 < margin -> ~ valid_value k v ->
  tolerance x (lower, upper) margin (name k) v =
  Raise (ValueError_value_at_1 (negb (permits_zero k)) v).
Proof.
  intros Hb Hm Hv. apply tolerance_sigmoid_error; [assumption | assumption |].
  intros d. apply _sigmoids_invalid. assumption.
Qed.

(** * The claims of the specification *)

(** ** Exactly one inside the bounds *)

Section Binary64_near_the_bounds.
Import PrimFloat.
#[local] Set Warnings "-inexact-float".

(** On binary64 the score rounds to exactly 1.0 just outside the bounds:
    [tolerance(1e-17, bounds=(0.0, 0.0), margin=1.0, sigmoid="linear",
    value_at_margin=0.1)] is [1 - 1e-17 * 0.9], which is [1.0], and
    [1e-17 <= 0.0] is false; likewise with [sigmoid="reciprocal"], where it
    is [1 / (1e-17 * 9.0 + 1)]. *)
Lemma binary64_one_outside_bounds :
  tolerance_binary64 1e-17%float (0, 0)%float 1%float "linear" 0.1%float =
  Returns 1%float /\
  tolerance_binary64 1e-17%float (0, 0)%float 1%float "reciprocal" 0.1%float =
  Returns 1%float /\
  PrimFloat.leb 1e-17%float 0%float = false.
Proof. vm_compute. repeat split; reflexivity. Qed.

End Binary64_near_the_bounds.

(** C2, as amended.  With [lower <= upper], [margin >= 0], any of the eight
    shapes and a [value_at_margin] valid for it, [tolerance] succeeds, its
    element at every input inside the inclusive bounds is exactly 1, whatever
    the shape and the margin, and no element exceeds 1. *)
Theorem tolerance_one_in_bounds
    (x : np_input) (lower upper margin : R) (k : kind) (v : R) :
  lower <= upper -> 0 <= margin -> valid_value k v ->
  exists value,
    tolerance x (lower, upper) margin (name k) v = Ok value /\
    Forall2 (fun xi yi => (lower <= xi <= upper -> yi = 1) /\ yi <= 1)
            (data (as_array x)) (elements value).
Proof.
  intros Hb Hm Hv. eexists. split; [apply tolerance_valid; assumption|].
  rewrite elements_elementwise. apply Forall2_map_r.
  intros xi. split.
  - apply value_at_inside.
  - apply value_at_range; assumption.
Qed.

Lemma tolerance_one_in_bounds_witness :
  0 <= 1 /\ 0 <= 1 /\ valid_value linear 0 /\
  exists value,
    tolerance (Scalar 1) (0, 1) 1 "linear" 0 = Ok value /\
    Forall2 (fun xi yi => (0 <= xi <= 1 -> yi = 1) /\ yi <= 1)
            (data (as_array (Scalar 1))) (elements value).
Proof.
  assert (Hv : valid_value linear 0) by (split; simpl; lra).
  split; [lra|]. split; [lra|]. split; [exact Hv|].
  apply (tolerance_one_in_bounds (Scalar 1) 0 1 1 linear 0); [lra | lra | exact Hv].
Defined.

(** ** Range *)



(** ** The value at the margin *)

Section Binary64_at_the_margin.
Import PrimFloat.
#[local] Set Warnings "-inexact-float".



End Binary64_at_the_margin.


(** ** Monotonicity *)



(** For two scalars the statement reads on the returned floats. *)
Corollary tolerance_monotone_scalars
    (lower upper margin : R) (k : kind) (v x1 x2 : R) :
  lower <= upper -> 0 <= margin -> valid_value k v ->
  farther_out lower upper x1 x2 ->
  exists y1 y2,
    tolerance (Scalar x1) (lower, upper) margin (name k) v = Ok (PyFloat y1) /\
    tolerance (Scalar x2) (lower, upper) margin (name k) v = Ok (PyFloat y2) /\
    y2 <= y1.
Proof.
  intros Hb Hm Hv Hx.
  exists (value_at k lower upper margin v x1), (value_at k lower upper margin v x2).
  rewrite !tolerance_valid by assumption.
  repeat split. apply value_at_decreasing; assumption.
Qed.

(** ** The hard indicator *)

(** C7. With [margin = 0] and bounds in order, [tolerance] returns exactly 1
    where the input is inside the bounds and exactly 0 where it is not, for
    every string [sigmoid], recognised or not, and every [value_at_margin],
    in range or not: neither check of the Sigmoid Evaluator runs and nothing
    is raised. *)
Theorem tolerance_margin_zero
    (x : np_input) (lower upper : R) (sigmoid : string) (v : R) :
  lower <= upper ->
  exists value,
    tolerance x (lower, upper) 0 sigmoid v = Ok value /\
    Forall2 (fun xi yi => (lower <= xi <= upper -> yi = 1) /\
                          (~ lower <= xi <= upper -> yi = 0))
            (data (as_array x)) (elements value).
Proof.
  intros Hb. eexists. split; [apply tolerance_margin_0; assumption|].
  rewrite elements_elementwise. apply Forall2_map_r.
  intros xi. unfold indicator_at.
  destruct (inside_spec lower upper xi); split; intros; tauto || reflexivity.
Qed.

Lemma tolerance_margin_zero_witness :
  0 <= 1 /\
  exists value,
    tolerance (Arr (mk_array [2%nat] [0.5; 3])) (0, 1) 0 "bogus" 7 = Ok value /\
    Forall2 (fun xi yi => (0 <= xi <= 1 -> yi = 1) /\ (~ 0 <= xi <= 1 -> yi = 0))
            (data (as_array (Arr (mk_array [2%nat] [0.5; 3])))) (elements value).
Proof.
  split; [lra|].
  apply (tolerance_margin_zero (Arr (mk_array [2%nat] [0.5; 3])) 0 1 "bogus" 7). lra.
Defined.

(** ** Errors *)




(** The five calls listed in the specification. *)
Example tolerance_bounds_1_0 (x : np_input) :
  tolerance x (1, 0) 0 "gaussian" _DEFAULT_VALUE_AT_MARGIN = Raise ValueError_bounds.
Proof. apply tolerance_bounds_error; lra. Qed.

Example tolerance_margin_minus_1 (x : np_input) :
  tolerance x (0, 0) (-1) "gaussian" _DEFAULT_VALUE_AT_MARGIN = Raise ValueError_margin.
Proof. apply tolerance_margin_error; lra. Qed.

Example tolerance_bogus (x : np_input) :
  tolerance x (0, 0) 1 "bogus" _DEFAULT_VALUE_AT_MARGIN =
  Raise (ValueError_unknown_sigmoid "bogus").
Proof.
  apply tolerance_unknown_sigmoid;
    [lra | lra | exact bogus_unrecognized | unfold _DEFAULT_VALUE_AT_MARGIN; lra].
Qed.

Example tolerance_gaussian_0 (x : np_input) :
  tolerance x (0, 0) 1 "gaussian" 0 = Raise (ValueError_value_at_1 true 0).
Proof.
  apply (tolerance_invalid_value x 0 0 1 gaussian 0); [lra | lra |].
  unfold valid_value; simpl; lra.
Qed.

Example tolerance_linear_0 :
  tolerance (Scalar 0) (0, 0) 1 "linear" 0 = Ok (PyFloat 1).
Proof.
  change "linear"%string with (name linear).
  rewrite tolerance_valid by (lra || (split; simpl; lra)).
  cbn [elementwise]. rewrite value_at_inside by lra. reflexivity.
Qed.

(** An unknown shape together with a value outside [(0,1)]: the value is
    reported, since the check of [value_at_1] comes first. *)
Lemma tolerance_unrecognized_invalid_value
    (x : np_input) (lower upper margin : R) (sigmoid : string) (v : R) :
  lower <= upper -> 0 < margin -> ~ recognized sigmoid -> ~ 0 < v < 1 ->
  tolerance x (lower, upper) margin sigmoid v = Raise (ValueError_value_at_1 true v).
Proof.
  intros Hb Hm Hs Hv. apply tolerance_sigmoid_error; [assumption | assumption |].
  intros d. rewrite (_sigmoids_unrecognized _ _ _ Hs), (strict_window_not _ Hv).
  reflexivity.
Qed.

(** ** Order of validation *)

(** What the Sigmoid Evaluator raises when the shape is unknown or the value
    is outside the range of the shape; both variants raise the same. *)
Lemma sigmoid_failure (sigmoid : string) (v : R) :
  ~ (exists k, sigmoid = name k /\ valid_value k v) ->
  exists e, shape_error e /\
    (forall d, _sigmoids d v sigmoid = Raise e) /\
    (forall d, _sigmoids_tensor d v sigmoid = Raise e).
Proof.
  intros H. destruct (recognized_dec sigmoid) as [[k ->]|Hs].
  - assert (Hv : ~ valid_value k v) by (intros C; apply H; exists k; auto).
    exists (ValueError_value_at_1 (negb (permits_zero k)) v). split; [exact I|].
    split; intros d; [apply _sigmoids_invalid | apply _sigmoids_tensor_invalid]; assumption.
  - exists (if Rltb 0 v && Rltb v 1 then ValueError_unknown_sigmoid sigmoid
            else ValueError_value_at_1 true v).
    split; [destruct (Rltb 0 v && Rltb v 1); exact I|].
    split; intros d;
      [rewrite (_sigmoids_unrecognized _ _ _ Hs)
      | rewrite (_sigmoids_tensor_unrecognized _ _ _ Hs)];
      destruct (Rltb 0 v && Rltb v 1); reflexivity.
Qed.

(** An error of the Sigmoid Evaluator comes out of [tolerance] or
    [tolerance_tensor] only after bounds and margin have passed. *)
Lemma shape_error_after_validation
    (r : result pyval) (lower upper margin : R) (e : exn) :
  shape_error e ->
  (upper < lower -> r = Raise ValueError_bounds) ->
  (lower <= upper -> margin < 0 -> r = Raise ValueError_margin) ->
  (lower <= upper -> margin = 0 -> exists value, r = Ok value) ->
  r = Raise e -> lower <= upper /\ 0 < margin.
Proof.
  intros He B M Z E.
  destruct (Rlt_le_dec upper lower) as [Hb|Hb].
  { rewrite (B Hb) in E. injection E as <-. contradiction. }
  destruct (Rlt_le_dec margin 0) as [Hm|Hm].
  { rewrite (M Hb Hm) in E. injection E as <-. contradiction. }
  destruct (Req_dec_T margin 0) as [H0|H0].
  { destruct (Z Hb H0) as [value V]. rewrite V in E. discriminate E. }
  split; lra.
Qed.

(** C10. Both [tolerance] and [tolerance_tensor] validate in one order:
    bounds first, so [lower > upper] gives the invalid-bounds error whatever
    the margin and the shape; then the margin, so a negative margin with
    bounds in order gives the invalid-margin error whatever the shape.  An
    error of the Sigmoid Evaluator (rejected [value_at_margin] or unknown
    shape) is reported only when bounds and margin have passed, with a
    positive margin; there [tolerance] reports one whenever the shape is
    unknown or the value is outside the range of the shape, and
    [tolerance_tensor] whenever that holds of the value cast to single
    precision. *)
Theorem validation_order
    (x : np_input) (t : array R) (lower upper margin : R) (sigmoid : string) (v : R) :
  (upper < lower ->
     tolerance x (lower, upper) margin sigmoid v = Raise ValueError_bounds /\
     tolerance_tensor t (lower, upper) margin sigmoid v = Raise ValueError_bounds) /\
  (lower <= upper -> margin < 0 ->
     tolerance x (lower, upper) margin sigmoid v = Raise ValueError_margin /\
     tolerance_tensor t (lower, upper) margin sigmoid v = Raise ValueError_margin) /\
  (forall e, shape_error e ->
     tolerance x (lower, upper) margin sigmoid v = Raise e \/
     tolerance_tensor t (lower, upper) margin sigmoid v = Raise e ->
     lower <= upper /\ 0 < margin) /\
  (lower <= upper -> 0 < margin ->
   ~ (exists k, sigmoid = name k /\ valid_value k v) ->
     exists e, shape_error e /\
       tolerance x (lower, upper) margin sigmoid v = Raise e) /\
  (lower <= upper -> 0 < margin ->
   ~ (exists k, sigmoid = name k /\ valid_value k (float32 v)) ->
     exists e, shape_error e /\
       tolerance_tensor t (lower, upper) margin sigmoid v = Raise e).
Proof.
  split; [|split; [|split; [|split]]].
  - intros H. split; [apply tolerance_bounds_error | apply tolerance_tensor_bounds_error];
      assumption.
  - intros Hb H. split; [apply tolerance_margin_error | apply tolerance_tensor_margin_error];
      assumption.
  - intros e He [E|E].
    + apply (shape_error_after_validation _ lower upper margin e He) in E;
        [exact E | apply tolerance_bounds_error | apply tolerance_margin_error |].
      intros Hb ->. eexists. apply tolerance_margin_0. assumption.
    + apply (shape_error_after_validation _ lower upper margin e He) in E;
        [exact E | apply tolerance_tensor_bounds_error
        | apply tolerance_tensor_margin_error |].
      intros Hb ->. eexists. apply tolerance_tensor_margin_0. assumption.
  - intros Hb Hm H. destruct (sigmoid_failure sigmoid v H) as [e [He [E1 _]]].
    exists e. split; [exact He|]. apply tolerance_sigmoid_error; assumption.
  - intros Hb Hm H. destruct (sigmoid_failure sigmoid (float32 v) H) as [e [He [_ E2]]].
    exists e. split; [exact He|]. apply tolerance_tensor_sigmoid_error; assumption.
Qed.

(** Invalid bounds with a negative margin and an unknown shape: the bounds
    are reported, by both variants. *)
Lemma validation_order_witness :
  0 < 1 /\
  tolerance (Scalar 0) (1, 0) (-1) "bogus" 0 = Raise ValueError_bounds /\
  tolerance_tensor (mk_array [] [0]) (1, 0) (-1) "bogus" 0 = Raise ValueError_bounds.
Proof.
  split; [lra|].
  apply (proj1 (validation_order (Scalar 0) (mk_array [] [0]) 1 0 (-1) "bogus" 0)). lra.
Defined.

(** A negative margin with an unknown shape: the margin is reported. *)
Example margin_before_shape (x : np_input) (t : array R) :
  tolerance x (0, 0) (-1) "bogus" 0 = Raise ValueError_margin /\
  tolerance_tensor t (0, 0) (-1) "bogus" 0 = Raise ValueError_margin.
Proof.
  split; [apply tolerance_margin_error | apply tolerance_tensor_margin_error]; lra.
Qed.

(** ** The range of the Sigmoid Evaluator *)


(** On a negative distance the [linear] branch exceeds 1: [1 - x * scale]
    with [-1 < x * scale < 0]. *)
Example sigmoids_linear_negative :
  _sigmoids (mk_array [] [-0.5]) 0 "linear" = Ok (mk_array [] [1.5]).
Proof.
  assert (Hv : valid_value linear 0) by (split; simpl; lra).
  rewrite (_sigmoids_elementwise linear 0 _ Hv). cbn [data shape map sigmoid_at].
  replace (-0.5 * (1 - 0)) with (-0.5) by lra.
  rewrite (Rltb_true (Rabs (-0.5)) 1).
  - do 3 f_equal. lra.
  - unfold Rabs. destruct (Rcase_abs (-0.5)); lra.
Qed.



(** ** The two back ends side by side *)

(** Away from the [cosine] branch, and in exact arithmetic, the tensor
    variant has the outcome of the array variant on the value cast to single
    precision: the same exception, or the same elements under the same
    shape. *)
Lemma backends_agree
    (x : array R) (lower upper margin : R) (sigmoid : string) (v : R) :
  ~ (lower <= upper /\ 0 < margin /\ sigmoid = "cosine"%string /\
     valid_value cosine (float32 v)) ->
  same_outcome (tolerance (Arr x) (lower, upper) margin sigmoid (float32 v))
               (tolerance_tensor x (lower, upper) margin sigmoid v).
Proof.
  intros H.
  destruct (Rlt_le_dec upper lower) as [Hb|Hb].
  { rewrite tolerance_bounds_error, tolerance_tensor_bounds_error by assumption.
    reflexivity. }
  destruct (Rlt_le_dec margin 0) as [Hm|Hm].
  { rewrite tolerance_margin_error, tolerance_tensor_margin_error by assumption.
    reflexivity. }
  destruct (Req_dec_T margin 0) as [->|Hne].
  { rewrite tolerance_margin_0, tolerance_tensor_margin_0 by assumption.
    reflexivity. }
  assert (Hm' : 0 < margin) by lra.
  set (w := float32 v) in *.
  destruct (recognized_dec sigmoid) as [[k ->]|Hs].
  - destruct (Rlt_le_dec w 1) as [H1|H1];
      [destruct (if permits_zero k as b return {if b then 0 <= w else 0 < w} +
                                                {~ if b then 0 <= w else 0 < w}
                 then Rle_dec 0 w else Rlt_dec 0 w) as [H0|H0] |].
    + assert (Hv : valid_value k w) by (split; assumption).
      assert (Hk : k <> cosine).
      { intros ->. apply H. split; [assumption|]. split; [assumption|].
        split; [reflexivity | exact Hv]. }
      rewrite tolerance_elementwise, tolerance_tensor_elementwise by assumption.
      reflexivity.
    + assert (Hv : ~ valid_value k w) by (intros [C _]; contradiction).
      rewrite (tolerance_sigmoid_error _ _ _ _ _ _ _ Hb Hm'
                 (fun d => _sigmoids_invalid k w d Hv)).
      rewrite (tolerance_tensor_sigmoid_error _ _ _ _ _ _ _ Hb Hm'
                 (fun d => _sigmoids_tensor_invalid k w d Hv)).
      reflexivity.
    + assert (Hv : ~ valid_value k w) by (intros [_ C]; lra).
      rewrite (tolerance_sigmoid_error _ _ _ _ _ _ _ Hb Hm'
                 (fun d => _sigmoids_invalid k w d Hv)).
      rewrite (tolerance_tensor_sigmoid_error _ _ _ _ _ _ _ Hb Hm'
                 (fun d => _sigmoids_tensor_invalid k w d Hv)).
      reflexivity.
  - assert (N : ~ (exists k, sigmoid = name k /\ valid_value k w)).
    { intros [k [E _]]. apply Hs. exists k. exact E. }
    destruct (sigmoid_failure sigmoid w N) as [e [_ [E1 E2]]].
    rewrite (tolerance_sigmoid_error _ _ _ _ _ _ _ Hb Hm' E1).
    rewrite (tolerance_tensor_sigmoid_error _ _ _ _ _ _ _ Hb Hm' E2).
    reflexivity.
Qed.

(** C1, at the input where the code departs from it.  On the one-element
    input [[2.0]] with [bounds = (0, 1)], [margin = 1], [sigmoid = "cosine"]
    and [value_at_margin = 0.1], the array variant returns an array while the
    tensor variant ends with the [TypeError] of [torch.where]: the two do not
    fail in the same cases. *)
Theorem backends_diverge_on_cosine :
  (exists a, tolerance (Arr (mk_array [1%nat] [2])) (0, 1) 1 "cosine" 0.1 =
             Ok (NdArray a)) /\
  tolerance_tensor (mk_array [1%nat] [2]) (0, 1) 1 "cosine" 0.1 = Raise TypeError_where.
Proof.
  assert (Hv : valid_value cosine 0.1) by (split; simpl; lra).
  split.
  - eexists. apply (tolerance_elementwise (Arr _) 0 1 1 cosine 0.1); [lra | lra | exact Hv].
  - apply tolerance_tensor_cosine; [lra | lra | exact float32_tenth_valid].
Qed.

(** ** Classes of the returned values *)

(** The array variant: a plain float for a scalar, an array of the shape of
    the input for an array. *)
Lemma tolerance_return_class
    (x : np_input) (lower upper margin : R) (k : kind) (v : R) :
  lower <= upper -> 0 <= margin -> valid_value k v ->
  match x with
  | Scalar _ => exists r, tolerance x (lower, upper) margin (name k) v = Ok (PyFloat r)
  | Arr a => exists b, tolerance x (lower, upper) margin (name k) v = Ok (NdArray b) /\
                       shape b = shape a /\ List.length (data b) = List.length (data a)
  end.
Proof.
  intros Hb Hm Hv. rewrite tolerance_valid by assumption.
  destruct x; cbn [elementwise]; eexists; [reflexivity|].
  split; [reflexivity|]. split; [reflexivity|]. apply length_map.
Qed.

(** The tensor variant, away from the [cosine] branch, for a value that is
    valid once cast to single precision: a tensor of the shape of the input,
    also when it has a single element. *)
Lemma tolerance_tensor_return_class
    (x : array R) (lower upper margin : R) (k : kind) (v : R) :
  lower <= upper -> 0 <= margin -> valid_value k (float32 v) ->
  k <> cosine \/ margin = 0 ->
  exists b, tolerance_tensor x (lower, upper) margin (name k) v = Ok (Tensor b) /\
            shape b = shape x /\ List.length (data b) = List.length (data x).
Proof.
  intros Hb Hm Hv Hk. destruct (Req_dec_T margin 0) as [->|Hne].
  - rewrite tolerance_tensor_margin_0 by assumption.
    eexists. split; [reflexivity|]. split; [reflexivity|]. apply length_map.
  - destruct Hk as [Hk|Hk]; [|contradiction].
    rewrite tolerance_tensor_elementwise by (assumption || lra).
    eexists. split; [reflexivity|]. split; [reflexivity|]. apply length_map.
Qed.

(** C8, at the input where the code departs from it.  On the zero-dimensional
    tensor [2.0] with [bounds = (0, 1)], [margin = 1], [sigmoid = "cosine"]
    and [value_at_margin = 0.1], every argument is valid, and the tensor
    variant returns no tensor: it ends with the [TypeError] of
    [torch.where]. *)
Theorem tolerance_tensor_cosine_returns_nothing :
  valid_value cosine 0.1 /\
  tolerance_tensor (mk_array [] [2]) (0, 1) 1 "cosine" 0.1 = Raise TypeError_where /\
  forall b, tolerance_tensor (mk_array [] [2]) (0, 1) 1 "cosine" 0.1 <> Ok (Tensor b).
Proof.
  assert (Hv : valid_value cosine 0.1) by (split; simpl; lra).
  assert (E : tolerance_tensor (mk_array [] [2]) (0, 1) 1 "cosine" 0.1 =
              Raise TypeError_where)
    by (apply tolerance_tensor_cosine; [lra | lra | exact float32_tenth_valid]).
  split; [exact Hv|]. split; [exact E|]. intros b. rewrite E. discriminate.
Qed.

(** * Further properties of the code *)

(** ** Changing the parameters *)

Lemma distance_nonneg_outside (lower upper margin xi : R) :
  0 < margin -> lower <= upper -> ~ lower <= xi <= upper ->
  0 <= distance lower upper margin xi.
Proof. intros Hm Hb Ho. left. apply distance_outside; assumption. Qed.







(** ** Where the score vanishes *)

Lemma sigmoid_at_scale (k : kind) (v x : R) :
  permits_zero k = true ->
  sigmoid_at k v x =
  if Rltb (Rabs (x * scale k v)) 1
  then match k with
       | cosine => (1 + cos (PI * (x * scale k v))) / 2
       | linear => 1 - x * scale k v
       | _ => 1 - (x * scale k v) ^ 2
       end
  else 0.
Proof. destruct k; intros H; try discriminate H; reflexivity. Qed.

Lemma piecewise_scale (k : kind) (v : R) :
  permits_zero k = true -> valid_value k v -> 0 < scale k v <= 1.
Proof.
  intros Hk [H0 H1]. destruct k; try discriminate Hk; cbn [scale permits_zero] in *.
  - apply cosine_scale; lra.
  - lra.
  - apply quadratic_scale; lra.
Qed.

Lemma acos_minus_1 : acos (-1) = PI.
Proof. unfold acos. destruct (Rle_dec (-1) (-1)); [reflexivity | lra]. Qed.

Lemma piecewise_scale_0 (k : kind) : permits_zero k = true -> scale k 0 = 1.
Proof.
  intros Hk. destruct k; try discriminate Hk; cbn [scale].
  - replace (2 * 0 - 1) with (-1) by lra. rewrite acos_minus_1.
    field. pose proof PI_RGT_0; lra.
  - lra.
  - replace (1 - 0) with 1 by lra. apply sqrt_1.
Qed.

Lemma cos_gt_minus_1 (a : R) : 0 <= a < PI -> -1 < cos a.
Proof.
  intros H. rewrite <- cos_PI. apply cos_decreasing_1; lra.
Qed.

(** A piecewise shape is 0 exactly from the point where the scaled distance
    reaches 1. *)
Lemma sigmoid_at_zero_iff (k : kind) (v x : R) :
  permits_zero k = true -> valid_value k v -> 0 <= x ->
  sigmoid_at k v x = 0 <-> 1 <= x * scale k v.
Proof.
  intros Hk Hv Hx. rewrite (sigmoid_at_scale k v x Hk).
  destruct (piecewise_scale k v Hk Hv) as [S0 S1].
  assert (P : 0 <= x * scale k v) by (apply Rmult_le_pos; lra).
  rewrite Rabs_pos_eq by assumption.
  destruct (Rltb_spec (x * scale k v) 1) as [L|L]; [|split; [lra | reflexivity]].
  split; [|lra]. intros E. exfalso.
  destruct k; try discriminate Hk.
  - pose proof PI_RGT_0 as HPI.
    assert (-1 < cos (PI * (x * scale cosine v))) by (apply cos_gt_minus_1; nra).
    lra.
  - lra.
  - assert ((x * scale quadratic v) ^ 2 < 1) by nra. lra.
Qed.

Lemma value_at_zero_iff (k : kind) (lower upper margin v xi : R) :
  lower <= upper -> 0 < margin -> permits_zero k = true -> valid_value k v ->
  value_at k lower upper margin v xi = 0 <->
  ~ lower <= xi <= upper /\ 1 <= distance lower upper margin xi * scale k v.
Proof.
  intros Hb Hm Hk Hv.
  destruct (inside_spec lower upper xi) as [Hin|Hout].
  - rewrite value_at_inside by assumption. split; [lra | tauto].
  - rewrite value_at_outside by assumption. rewrite Reqb_false by lra.
    rewrite sigmoid_at_zero_iff;
      [tauto | assumption | assumption | apply distance_nonneg_outside; assumption].
Qed.

Lemma distance_ge_1 (lower upper margin xi : R) :
  lower <= upper -> 0 < margin -> ~ lower <= xi <= upper ->
  1 <= distance lower upper margin xi <-> xi <= lower - margin \/ upper + margin <= xi.
Proof.
  intros Hb Hm Ho. unfold distance.
  assert (Q : 0 < / margin) by (apply Rinv_0_lt_compat; lra).
  destruct (Rltb_spec xi lower) as [L|L].
  - assert (E : (lower - xi) / margin - 1 = (lower - margin - xi) * / margin)
      by (field; lra).
    split.
    + intros H. left. assert (0 <= (lower - margin - xi) * / margin) by lra. nra.
    + intros [H|H]; [|lra]. assert (0 <= (lower - margin - xi) * / margin)
        by (apply Rmult_le_pos; lra). lra.
  - assert (E : (xi - upper) / margin - 1 = (xi - upper - margin) * / margin)
      by (field; lra).
    split.
    + intros H. right. assert (0 <= (xi - upper - margin) * / margin) by lra. nra.
    + intros [H|H]; [lra|]. assert (0 <= (xi - upper - margin) * / margin)
        by (apply Rmult_le_pos; lra). lra.
Qed.

(** X7. With [value_at_margin = 0], which only [cosine], [linear] and
    [quadratic] accept, finite bounds in order and a positive margin, the
    score is exactly 0 at every input at least [margin] away from the
    bounds. *)
Theorem tolerance_zero_beyond_margin
    (x : np_input) (lower upper margin : R) (k : kind) :
  lower <= upper -> 0 < margin -> permits_zero k = true ->
  exists value,
    tolerance x (lower, upper) margin (name k) 0 = Ok value /\
    Forall2 (fun xi yi => xi <= lower - margin \/ upper + margin <= xi -> yi = 0)
            (data (as_array x)) (elements value).
Proof.
  intros Hb Hm Hk.
  assert (Hv : valid_value k 0) by (unfold valid_value; rewrite Hk; lra).
  eexists. split; [apply tolerance_valid; lra || assumption|].
  rewrite elements_elementwise. apply Forall2_map_r.
  intros xi Hx.
  assert (Hout : ~ lower <= xi <= upper) by lra.
  apply (value_at_zero_iff k lower upper margin 0 xi Hb Hm Hk Hv).
  split; [exact Hout|].
  rewrite (piecewise_scale_0 k Hk), Rmult_1_r.
  apply (distance_ge_1 lower upper margin xi Hb Hm Hout). exact Hx.
Qed.

Lemma tolerance_zero_beyond_margin_witness :
  0 <= 1 /\ 0 < 1 /\ permits_zero cosine = true /\
  exists value,
    tolerance (Arr (mk_array [2%nat] [1.5; 2])) (0, 1) 1 "cosine" 0 = Ok value /\
    Forall2 (fun xi yi => xi <= 0 - 1 \/ 1 + 1 <= xi -> yi = 0)
            (data (as_array (Arr (mk_array [2%nat] [1.5; 2])))) (elements value).
Proof.
  split; [lra|]. split; [lra|]. split; [reflexivity|].
  apply (tolerance_zero_beyond_margin (Arr (mk_array [2%nat] [1.5; 2])) 0 1 1 cosine);
    [lra | lra | reflexivity].
Defined.

(** ** The Sigmoid Evaluator on its own *)

Lemma sigmoid_at_even (k : kind) (v x : R) :
  k <> linear -> sigmoid_at k v (- x) = sigmoid_at k v x.
Proof.
  intros Hk. destruct k; try contradiction; cbn -[pow cos acos PI].
  - f_equal. f_equal. simpl. ring.
  - f_equal. rewrite <- (cosh_even (x * arccosh (1 / v))). f_equal. ring.
  - f_equal. f_equal. simpl. ring.
  - rewrite Rabs_Ropp. reflexivity.
  - replace (- x * (acos (2 * v - 1) / PI)) with (- (x * (acos (2 * v - 1) / PI))) by ring.
    rewrite Rabs_Ropp.
    replace (PI * - (x * (acos (2 * v - 1) / PI)))
      with (- (PI * (x * (acos (2 * v - 1) / PI)))) by ring.
    rewrite cos_neg. reflexivity.
  - replace (- x * sqrt (1 - v)) with (- (x * sqrt (1 - v))) by ring.
    rewrite Rabs_Ropp. destruct (Rltb (Rabs (x * sqrt (1 - v))) 1); [|reflexivity].
    simpl. ring.
  - rewrite !tanh_sqr. f_equal. f_equal.
    rewrite <- (cosh_even (x * arctanh (sqrt (1 - v)))). f_equal. ring.
Qed.

(** X8. Every shape but [linear] is an even function of the distance:
    [_sigmoids] gives the same array on [-x] as on [x].  ([linear] computes
    [1 - x * scale] without an absolute value.) *)
Theorem sigmoids_even (k : kind) (v : R) (x : array R) :
  k <> linear -> valid_value k v ->
  _sigmoids (amap Ropp x) v (name k) = _sigmoids x v (name k).
Proof.
  intros Hk Hv. rewrite !(_sigmoids_elementwise k v) by assumption.
  cbn [amap shape data]. rewrite map_map. f_equal. f_equal.
  apply map_ext. intros a. apply sigmoid_at_even. assumption.
Qed.

Lemma sigmoids_even_witness :
  cosine <> linear /\ valid_value cosine 0.1 /\
  _sigmoids (amap Ropp (mk_array [2%nat] [0.5; 2])) 0.1 "cosine" =
  _sigmoids (mk_array [2%nat] [0.5; 2]) 0.1 "cosine".
Proof.
  assert (Hv : valid_value cosine 0.1) by (split; simpl; lra).
  assert (Hk : cosine <> linear) by discriminate.
  split; [exact Hk|]. split; [exact Hv|].
  apply (sigmoids_even cosine 0.1 (mk_array [2%nat] [0.5; 2]) Hk Hv).
Defined.

(** X10. The check of [value_at_1] comes before the dispatch on the shape:
    for a [sigmoid] outside the eight identifiers and a value not strictly
    between 0 and 1, both evaluators raise the error about [value_at_1]
    (with the strict message), not the unknown-sigmoid error, and so do
    [tolerance] and [tolerance_tensor] with a positive margin
    ([tolerance_tensor] reports the value as cast to single precision). *)
Theorem value_check_before_dispatch
    (x : np_input) (t d : array R) (lower upper margin : R) (sigmoid : string) (v : R) :
  ~ recognized sigmoid -> ~ 0 < v < 1 -> lower <= upper -> 0 < margin ->
  _sigmoids d v sigmoid = Raise (ValueError_value_at_1 true v) /\
  _sigmoids_tensor d v sigmoid = Raise (ValueError_value_at_1 true v) /\
  tolerance x (lower, upper) margin sigmoid v = Raise (ValueError_value_at_1 true v) /\
  tolerance_tensor t (lower, upper) margin sigmoid v =
  Raise (ValueError_value_at_1 true (float32 v)).
Proof.
  intros Hs Hv Hb Hm.
  assert (E1 : forall d, _sigmoids d v sigmoid = Raise (ValueError_value_at_1 true v)).
  { intros d'. rewrite (_sigmoids_unrecognized _ _ _ Hs), (strict_window_not _ Hv).
    reflexivity. }
  assert (E2 : forall d, _sigmoids_tensor d v sigmoid =
                         Raise (ValueError_value_at_1 true v)).
  { intros d'. rewrite (_sigmoids_tensor_unrecognized _ _ _ Hs), (strict_window_not _ Hv).
    reflexivity. }
  split; [apply E1|]. split; [apply E2|].
  split; [apply tolerance_sigmoid_error; assumption|].
  apply tolerance_tensor_sigmoid_error; [assumption | assumption |].
  intros d'. rewrite (_sigmoids_tensor_unrecognized _ _ _ Hs).
  rewrite (strict_window_not _ (float32_outside_window v Hv)). reflexivity.
Qed.

Lemma value_check_before_dispatch_witness :
  ~ recognized "bogus" /\ ~ 0 < 0 < 1 /\ 0 <= 0 /\ 0 < 1 /\
  _sigmoids (mk_array [] [1]) 0 "bogus" = Raise (ValueError_value_at_1 true 0) /\
  _sigmoids_tensor (mk_array [] [1]) 0 "bogus" = Raise (ValueError_value_at_1 true 0) /\
  tolerance (Scalar 0) (0, 0) 1 "bogus" 0 = Raise (ValueError_value_at_1 true 0) /\
  tolerance_tensor (mk_array [] [0]) (0, 0) 1 "bogus" 0 =
  Raise (ValueError_value_at_1 true (float32 0)).
Proof.
  assert (Hv : ~ 0 < 0 < 1) by lra.
  split; [exact bogus_unrecognized|]. split; [exact Hv|]. split; [lra|]. split; [lra|].
  apply (value_check_before_dispatch (Scalar 0) (mk_array [] [0]) (mk_array [] [1])
           0 0 1 "bogus" 0 bogus_unrecognized Hv); lra.
Defined.

(** ** The tensor variant *)

(** X11. In the [cosine] branch [_sigmoids_tensor] returns a numpy array, not
    a tensor, and so, for every tensor [x] (on the CPU, not tracking
    gradients), bounds in order, a positive margin and a [value_at_margin]
    that is valid for [cosine] once cast to single precision,
    [tolerance_tensor] with [sigmoid = "cosine"] ends with the [TypeError] of
    [torch.where]. *)
Theorem tolerance_tensor_cosine_type_error
    (x d : array R) (lower upper margin v : R) :
  lower <= upper -> 0 < margin -> valid_value cosine (float32 v) ->
  (exists a, _sigmoids_tensor d (float32 v) "cosine" = Ok (NdArray a)) /\
  tolerance_tensor x (lower, upper) margin "cosine" v = Raise TypeError_where.
Proof.
  intros Hb Hm Hv. split.
  - eexists. apply (_sigmoids_tensor_elementwise cosine (float32 v) d Hv).
  - apply tolerance_tensor_cosine; assumption.
Qed.

Lemma float32_zero_valid (k : kind) : permits_zero k = true -> valid_value k (float32 0).
Proof. intros Hk. rewrite float32_0. unfold valid_value. rewrite Hk. lra. Qed.

Lemma tolerance_tensor_cosine_type_error_witness :
  0 <= 1 /\ 0 < 1 /\ valid_value cosine (float32 0) /\
  (exists a, _sigmoids_tensor (mk_array [1%nat] [0.5]) (float32 0) "cosine" =
             Ok (NdArray a)) /\
  tolerance_tensor (mk_array [1%nat] [0.5]) (0, 1) 1 "cosine" 0 = Raise TypeError_where.
Proof.
  assert (Hv : valid_value cosine (float32 0)) by (apply float32_zero_valid; reflexivity).
  split; [lra|]. split; [lra|]. split; [exact Hv|].
  apply (tolerance_tensor_cosine_type_error
           (mk_array [1%nat] [0.5]) (mk_array [1%nat] [0.5]) 0 1 1 0); [lra | lra | exact Hv].
Defined.






(** ** The two variants on the same calls *)

Lemma same_outcome_failure (a b : result pyval) : same_outcome a b -> same_failure a b.
Proof.
  destruct a as [[r|u|u]|e1], b as [[r'|u'|u']|e2]; cbn; auto; contradiction.
Qed.

(** X14. Whenever the shape is not ["cosine"] or the margin is 0,
    [tolerance_tensor] fails exactly when [tolerance] fails on the same
    arguments with [value_at_margin] cast to single precision, and with the
    same exception, whatever the arguments, valid or not. *)
Theorem backends_same_failures
    (x : array R) (lower upper margin : R) (sigmoid : string) (v : R) :
  sigmoid <> "cosine"%string \/ margin = 0 ->
  same_failure (tolerance (Arr x) (lower, upper) margin sigmoid (float32 v))
               (tolerance_tensor x (lower, upper) margin sigmoid v).
Proof.
  intros H. apply same_outcome_failure, backends_agree. intros [_ [Hm [E _]]].
  destruct H as [H|H]; [contradiction | lra].
Qed.

Lemma backends_same_failures_witness :
  ("bogus"%string <> "cosine"%string \/ -1 = 0) /\
  same_failure (tolerance (Arr (mk_array [1%nat] [2])) (0, 1) (-1) "bogus" (float32 0))
               (tolerance_tensor (mk_array [1%nat] [2]) (0, 1) (-1) "bogus" 0).
Proof.
  assert (H : "bogus"%string <> "cosine"%string \/ -1 = 0) by (left; discriminate).
  split; [exact H|].
  apply (backends_same_failures (mk_array [1%nat] [2]) 0 1 (-1) "bogus" 0 H).
Defined.

(** X15. The return statement of [tolerance]: on valid arguments a scalar
    input gives a plain float, and an array input gives an array of the same
    shape with as many elements, also when the array has a single element or
    no dimension. *)
Theorem tolerance_scalar_or_array (lower upper margin : R) (k : kind) (v : R) :
  lower <= upper -> 0 <= margin -> valid_value k v ->
  (forall r, exists y,
      tolerance (Scalar r) (lower, upper) margin (name k) v = Ok (PyFloat y)) /\
  (forall a, exists b,
      tolerance (Arr a) (lower, upper) margin (name k) v = Ok (NdArray b) /\
      shape b = shape a /\ List.length (data b) = List.length (data a)).
Proof.
  intros Hb Hm Hv. split.
  - intros r. eexists. apply (tolerance_valid (Scalar r)); assumption.
  - intros a. eexists. split; [apply (tolerance_valid (Arr a)); assumption|].
    split; [reflexivity|]. apply length_map.
Qed.

Lemma tolerance_scalar_or_array_witness :
  0 <= 1 /\ 0 <= 1 /\ valid_value gaussian 0.1 /\
  (forall r, exists y,
      tolerance (Scalar r) (0, 1) 1 "gaussian" 0.1 = Ok (PyFloat y)) /\
  (forall a, exists b,
      tolerance (Arr a) (0, 1) 1 "gaussian" 0.1 = Ok (NdArray b) /\
      shape b = shape a /\ List.length (data b) = List.length (data a)).
Proof.
  assert (Hv : valid_value gaussian 0.1) by (split; simpl; lra).
  split; [lra|]. split; [lra|]. split; [exact Hv|].
  apply (tolerance_scalar_or_array 0 1 1 gaussian 0.1); [lra | lra | exact Hv].
Defined.
